(** * Verification of locust_plugins/backend_base.py

    A shallow embedding of the forwarding listener of
    [locust_plugins/backend_base.py]: the two request hooks that build an
    event by string interpolation and [json.loads], the unbounded hand-off
    queue, the set of backend adapters, the dispatch loop [run], and the
    two concrete adapters ([PrintAdapter], [ElasticSearchAdapter]).

    Python library behaviour the source relies on (the [%] operator on
    [str], [json.dumps], [json.loads], [queue.Queue], [set]) is modelled in
    the first half of the file, following CPython; the classes of the
    source follow, method by method. *)

From Stdlib Require Import String Ascii.
From Stdlib Require Import List Bool Arith ZArith NArith Lia.
From Stdlib Require Decimal DecimalN DecimalFacts DecimalPos.
Import ListNotations.

Set Implicit Arguments.
Local Open Scope N_scope.
Local Open Scope list_scope.

(** ** Python strings

    A Python [str] is a sequence of code points.  Literals of the source
    are written as Rocq strings and converted with [str]; [dq] is [str]
    for literals that contain the double-quote character, which is typed
    as ['] in this file ([dq "{'a':1}"] is the Python literal
    ['{"a":1}']). *)

Definition pystr := list N.

Definition str (s : string) : pystr :=
  map N_of_ascii (list_ascii_of_string s).

Definition QUOTE : N := 34.       (* the double-quote character *)
Definition BACKSLASH : N := 92.
Definition APOSTROPHE : N := 39.

Definition dq (s : string) : pystr :=
  map (fun c => if c =? APOSTROPHE then QUOTE else c) (str s).

Fixpoint pystr_eqb (a b : pystr) : bool :=
  match a, b with
  | [], [] => true
  | x :: a', y :: b' => (x =? y) && pystr_eqb a' b'
  | _, _ => false
  end.

(** [s[0:len(p)] == p], with the remainder of [s] when it holds. *)
Fixpoint strip_prefix (p s : pystr) : option pystr :=
  match p, s with
  | [], _ => Some s
  | x :: p', y :: s' => if x =? y then strip_prefix p' s' else None
  | _ :: _, [] => None
  end.

(** ** Exceptions and outcomes *)

Inductive exn : Type :=
| TypeError
| ValueError
| KeyError
| JSONDecodeError
| ConnectionError
| AdapterError
| OtherException (name : string).

Inductive result (A : Type) : Type :=
| Ok (a : A)
| Raise (e : exn).
Arguments Ok {A} a.
Arguments Raise {A} e.

Definition bind {A B} (m : result A) (k : A -> result B) : result B :=
  match m with
  | Ok a => k a
  | Raise e => Raise e
  end.

Notation "m >>= k" := (bind m k) (at level 58, k at level 200).

(** ** [str()] of the values the host framework passes to the hooks

    The hooks receive strings, integers, [None], booleans and, for the
    failure hook, an exception object; [%s] renders its argument with
    [str()].  Floating-point values are outside the model. *)

Inductive pyarg : Type :=
| ANone
| ABool (b : bool)
| AInt (z : Z)
| AStr (s : pystr)
| AException (message : pystr).

Definition digit_char (k : N) : N := 48 + k.

Fixpoint uint_chars (d : Decimal.uint) : pystr :=
  match d with
  | Decimal.Nil => []
  | Decimal.D0 d' => digit_char 0 :: uint_chars d'
  | Decimal.D1 d' => digit_char 1 :: uint_chars d'
  | Decimal.D2 d' => digit_char 2 :: uint_chars d'
  | Decimal.D3 d' => digit_char 3 :: uint_chars d'
  | Decimal.D4 d' => digit_char 4 :: uint_chars d'
  | Decimal.D5 d' => digit_char 5 :: uint_chars d'
  | Decimal.D6 d' => digit_char 6 :: uint_chars d'
  | Decimal.D7 d' => digit_char 7 :: uint_chars d'
  | Decimal.D8 d' => digit_char 8 :: uint_chars d'
  | Decimal.D9 d' => digit_char 9 :: uint_chars d'
  end.

(** [int.__repr__]: decimal, no leading zero, ['-'] for negatives.
    CPython from 3.11 on refuses to write or read an [int] of more than
    4300 digits ([ValueError]), unless the limit is lifted; the limit is
    not modelled.  Where a statement says that a call succeeds, it is
    about integers within that limit ([few_digits] below). *)
Definition int_repr (z : Z) : pystr :=
  match z with
  | Z0 => str "0"
  | Zpos p => uint_chars (Pos.to_uint p)
  | Zneg p => str "-" ++ uint_chars (Pos.to_uint p)
  end.

Definition py_str (a : pyarg) : pystr :=
  match a with
  | ANone => str "None"
  | ABool true => str "True"
  | ABool false => str "False"
  | AInt z => int_repr z
  | AStr s => s
  | AException m => m
  end.

(** ** The [%] operator, [format % (a1, ..., an)]

    The format is scanned left to right; [%s] consumes the next argument
    and inserts its [str()], [%%] inserts a percent sign.  Running out of
    arguments is a [TypeError]
    ("not enough arguments for format string"), and so are arguments left
    over once the format is exhausted
    ("not all arguments converted during string formatting").  The
    templates of the source use [%s] only; any other conversion character
    is reported as [ValueError], and so is a format that ends in a lone
    percent sign ("incomplete format"). *)

Definition PERCENT : N := 37.

Fixpoint percent_format (fmt : pystr) (args : list pyarg) : result pystr :=
  match fmt with
  | [] =>
      match args with
      | [] => Ok []
      | _ :: _ => Raise TypeError
      end
  | c :: fmt' =>
      if c =? PERCENT then
        match fmt' with
        | [] => Raise ValueError
        | d :: fmt'' =>
            if d =? 115 (* s *) then
              match args with
              | [] => Raise TypeError
              | a :: args' =>
                  percent_format fmt'' args' >>= fun r => Ok (py_str a ++ r)
              end
            else if d =? PERCENT then
              percent_format fmt'' args >>= fun r => Ok (PERCENT :: r)
            else Raise ValueError
        end
      else
        percent_format fmt' args >>= fun r => Ok (c :: r)
  end.

(** ** Python objects produced by [json.loads]

    A [dict] keeps its keys in insertion order, a key assigned again keeps
    its place and takes the new value.  A float is kept as the text that
    was read: no arithmetic is ever done on it here. *)

#[warnings="-register-all"]
Inductive pyobj : Type :=
| PyNone
| PyBool (b : bool)
| PyInt (z : Z)
| PyFloat (lexeme : pystr)
| PyStr (s : pystr)
| PyList (items : list pyobj)
| PyDict (items : list (pystr * pyobj)).

Definition dict := list (pystr * pyobj).

Fixpoint dict_get (d : dict) (k : pystr) : option pyobj :=
  match d with
  | [] => None
  | (k', v) :: d' => if pystr_eqb k' k then Some v else dict_get d' k
  end.

Fixpoint dict_set (d : dict) (k : pystr) (v : pyobj) : dict :=
  match d with
  | [] => [(k, v)]
  | (k', v') :: d' =>
      if pystr_eqb k' k then (k', v) :: d' else (k', v') :: dict_set d' k v
  end.

Fixpoint dict_del (d : dict) (k : pystr) : dict :=
  match d with
  | [] => []
  | (k', v') :: d' =>
      if pystr_eqb k' k then d' else (k', v') :: dict_del d' k
  end.

(** [dict(pairs)] *)
Definition dict_of_pairs (pairs : list (pystr * pyobj)) : dict :=
  fold_left (fun d kv => dict_set d (fst kv) (snd kv)) pairs [].

(** ** The [json] module *)

Module json.

(** *** [json.dumps], default options ([ensure_ascii=True], separators
    [", "] and [": "]), on the keyword arguments of a hook: a [dict] with
    [str] keys.  An exception object is not serializable. *)

Definition hex_char (d : N) : N := if d <? 10 then 48 + d else 87 + d.

(** ['\\u{0:04x}'.format(n)], for [n < 0x10000] *)
Definition u_escape (n : N) : pystr :=
  str "\u" ++ [hex_char (n / 4096 mod 16); hex_char (n / 256 mod 16);
               hex_char (n / 16 mod 16); hex_char (n mod 16)].

(** The replacement of one character by [encode_basestring_ascii]:
    [ESCAPE_ASCII] matches the backslash, the double quote and everything
    outside [' '..'~']. *)
Definition escape_char (c : N) : pystr :=
  if c =? QUOTE then [BACKSLASH; QUOTE]
  else if c =? BACKSLASH then [BACKSLASH; BACKSLASH]
  else if c =? 10 then str "\n"
  else if c =? 13 then str "\r"
  else if c =? 9 then str "\t"
  else if c =? 12 then str "\f"
  else if c =? 8 then str "\b"
  else if (32 <=? c) && (c <=? 126) then [c]
  else if c <? 65536 then u_escape c
  else
    let n := c - 65536 in
    u_escape (N.lor 55296 (N.land (N.shiftr n 10) 1023))
      ++ u_escape (N.lor 56320 (N.land n 1023)).

Definition encode_basestring_ascii (s : pystr) : pystr :=
  QUOTE :: flat_map escape_char s ++ [QUOTE].

Definition dumps_value (a : pyarg) : result pystr :=
  match a with
  | ANone => Ok (str "null")
  | ABool true => Ok (str "true")
  | ABool false => Ok (str "false")
  | AInt z => Ok (int_repr z)
  | AStr s => Ok (encode_basestring_ascii s)
  | AException _ => Raise TypeError
  end.

Definition dumps_item (kv : pystr * pyarg) : result pystr :=
  dumps_value (snd kv) >>= fun v =>
  Ok (encode_basestring_ascii (fst kv) ++ str ": " ++ v).

Fixpoint dumps_items (kw : list (pystr * pyarg)) : result pystr :=
  match kw with
  | [] => Ok []
  | [kv] => dumps_item kv
  | kv :: kw' =>
      dumps_item kv >>= fun x =>
      dumps_items kw' >>= fun r =>
      Ok (x ++ str ", " ++ r)
  end.

Definition dumps (kw : list (pystr * pyarg)) : result pystr :=
  dumps_items kw >>= fun r => Ok (str "{" ++ r ++ str "}").

(** *** [json.loads], default options ([strict=True]), after
    [json/decoder.py] and [json/scanner.py].  Every function takes the
    text from the current position on and returns the text that follows
    what it read.  [fuel] bounds the number of nested calls; the length
    of the text is always enough ([loads] below). *)

Inductive scan (A : Type) : Type :=
| Scanned (a : A) (rest : pystr)
| Invalid
| OutOfFuel.
Arguments Scanned {A} a rest.
Arguments Invalid {A}.
Arguments OutOfFuel {A}.

Definition is_ws (c : N) : bool :=
  (c =? 32) || (c =? 9) || (c =? 10) || (c =? 13).

Fixpoint skip_ws (s : pystr) : pystr :=
  match s with
  | c :: s' => if is_ws c then skip_ws s' else s
  | [] => []
  end.

Definition is_digit (c : N) : bool := (48 <=? c) && (c <=? 57).

Definition hex_value (c : N) : option N :=
  if (48 <=? c) && (c <=? 57) then Some (c - 48)
  else if (97 <=? c) && (c <=? 102) then Some (c - 87)
  else if (65 <=? c) && (c <=? 70) then Some (c - 55)
  else None.

(** [_decode_uXXXX]: exactly four hexadecimal digits *)
Definition decode_uXXXX (s : pystr) : option (N * pystr) :=
  match s with
  | a :: b :: c :: d :: s' =>
      match hex_value a, hex_value b, hex_value c, hex_value d with
      | Some x, Some y, Some z, Some w =>
          Some (((x * 16 + y) * 16 + z) * 16 + w, s')
      | _, _, _, _ => None
      end
  | _ => None
  end.

(** The text after [\u]: one escape, or a high and a low surrogate
    escape that are joined. *)
Definition scan_unicode_escape (s : pystr) : option (N * pystr) :=
  match decode_uXXXX s with
  | None => None
  | Some (uni, s1) =>
      if (55296 <=? uni) && (uni <=? 56319) then
        match strip_prefix (str "\u") s1 with
        | None => Some (uni, s1)
        | Some s2 =>
            match decode_uXXXX s2 with
            | None => None
            | Some (uni2, s3) =>
                if (56320 <=? uni2) && (uni2 <=? 57343) then
                  Some (65536 + N.lor (N.shiftl (uni - 55296) 10)
                                      (uni2 - 56320), s3)
                else Some (uni, s1)
            end
        end
      else Some (uni, s1)
  end.

(** The [BACKSLASH] table of the decoder *)
Definition unescape (esc : N) : option N :=
  if esc =? QUOTE then Some QUOTE
  else if esc =? BACKSLASH then Some BACKSLASH
  else if esc =? 47 then Some 47
  else if esc =? 98 then Some 8
  else if esc =? 102 then Some 12
  else if esc =? 110 then Some 10
  else if esc =? 114 then Some 13
  else if esc =? 116 then Some 9
  else None.

Definition scan_cons (c : N) (r : scan pystr) : scan pystr :=
  match r with
  | Scanned cs rest => Scanned (c :: cs) rest
  | Invalid => Invalid
  | OutOfFuel => OutOfFuel
  end.

(** [scanstring], from the character after the opening quote *)
Fixpoint scanstring (fuel : nat) (s : pystr) : scan pystr :=
  match fuel with
  | O => OutOfFuel
  | S fuel' =>
      match s with
      | [] => Invalid
      | c :: s1 =>
          if c =? QUOTE then Scanned [] s1
          else if c =? BACKSLASH then
            match s1 with
            | [] => Invalid
            | esc :: s2 =>
                if esc =? 117 (* u *) then
                  match scan_unicode_escape s2 with
                  | None => Invalid
                  | Some (ch, s3) => scan_cons ch (scanstring fuel' s3)
                  end
                else
                  match unescape esc with
                  | None => Invalid
                  | Some ch => scan_cons ch (scanstring fuel' s2)
                  end
            end
          else if c <? 32 then Invalid
          else scan_cons c (scanstring fuel' s1)
      end
  end.

(** [NUMBER_RE]: an optional minus sign and either a single [0] or a
    non-zero digit with any digits after it; then, optionally, a point
    with one digit or more; then, optionally, [e] or [E], an optional
    sign and one digit or more.  Digits are ASCII digits, as in the C
    scanner. *)

Fixpoint take_digits (s : pystr) : pystr * pystr :=
  match s with
  | c :: s' =>
      if is_digit c then let (ds, r) := take_digits s' in (c :: ds, r)
      else ([], s)
  | [] => ([], [])
  end.

Definition match_integer (s : pystr) : option (pystr * pystr) :=
  match s with
  | c :: s' =>
      if c =? 48 then Some ([c], s')
      else if is_digit c then
        let (ds, r) := take_digits s' in Some (c :: ds, r)
      else None
  | [] => None
  end.

Definition match_frac (s : pystr) : pystr * pystr :=
  match s with
  | c :: s' =>
      if c =? 46 (* . *) then
        match take_digits s' with
        | ([], _) => ([], s)
        | (ds, r) => (c :: ds, r)
        end
      else ([], s)
  | [] => ([], [])
  end.

Definition match_exp (s : pystr) : pystr * pystr :=
  match s with
  | c :: s' =>
      if (c =? 101) || (c =? 69) (* e E *) then
        let (sign, s'') :=
          match s' with
          | d :: t => if (d =? 45) || (d =? 43) then ([d], t) else ([], s')
          | [] => ([], s')
          end in
        match take_digits s'' with
        | ([], _) => ([], s)
        | (ds, r) => (c :: sign ++ ds, r)
        end
      else ([], s)
  | [] => ([], [])
  end.

(** [int(text)] on a run of decimal digits *)
Definition digits_value (ds : pystr) : N :=
  fold_left (fun acc c => acc * 10 + (c - 48)) ds 0.

Definition match_number (s : pystr) : option (pyobj * pystr) :=
  let (neg, s0) :=
    match s with
    | c :: s' => if c =? 45 then (true, s') else (false, s)
    | [] => (false, s)
    end in
  match match_integer s0 with
  | None => None
  | Some (int_digits, s1) =>
      let (frac, s2) := match_frac s1 in
      let (exp, s3) := match_exp s2 in
      match frac, exp with
      | [], [] =>
          let n := Z.of_N (digits_value int_digits) in
          Some (PyInt (if neg then (- n)%Z else n), s3)
      | _, _ =>
          Some (PyFloat ((if neg then [45] else []) ++ int_digits ++ frac ++ exp),
                s3)
      end
  end.

Definition literal (text : string) (v : pyobj) (s : pystr)
  : option (pyobj * pystr) :=
  match strip_prefix (str text) s with
  | Some rest => Some (v, rest)
  | None => None
  end.

Definition first_of {A} (a b : option A) : option A :=
  match a with
  | Some _ => a
  | None => b
  end.

(** The branches of [_scan_once] that read no nested value, in the order
    of the source. *)
Definition scan_atom (s : pystr) : option (pyobj * pystr) :=
  first_of (literal "null" PyNone s)
  (first_of (literal "true" (PyBool true) s)
  (first_of (literal "false" (PyBool false) s)
  (first_of (match_number s)
  (first_of (literal "NaN" (PyFloat (str "NaN")) s)
  (first_of (literal "Infinity" (PyFloat (str "Infinity")) s)
            (literal "-Infinity" (PyFloat (str "-Infinity")) s)))))).

Fixpoint scan_once (fuel : nat) (s : pystr) : scan pyobj :=
  match fuel with
  | O => OutOfFuel
  | S fuel' =>
      match s with
      | [] => Invalid
      | c :: s1 =>
          if c =? QUOTE then
            match scanstring fuel' s1 with
            | Scanned text rest => Scanned (PyStr text) rest
            | Invalid => Invalid
            | OutOfFuel => OutOfFuel
            end
          else if c =? 123 (* { *) then
            match skip_ws s1 with
            | d :: s2 =>
                if d =? QUOTE then JSONObject fuel' s2 []
                else if d =? 125 (* } *) then Scanned (PyDict []) s2
                else Invalid
            | [] => Invalid
            end
          else if c =? 91 (* [ *) then
            match skip_ws s1 with
            | d :: s2 =>
                if d =? 93 (* ] *) then Scanned (PyList []) s2
                else JSONArray fuel' (d :: s2) []
            | [] => Invalid
            end
          else
            match scan_atom s with
            | Some (v, rest) => Scanned v rest
            | None => Invalid
            end
      end
  end

(** The loop of [JSONObject], from the character after the opening quote
    of a key; [pairs] are the members read so far. *)
with JSONObject (fuel : nat) (s : pystr) (pairs : list (pystr * pyobj))
  : scan pyobj :=
  match fuel with
  | O => OutOfFuel
  | S fuel' =>
      match scanstring fuel' s with
      | Scanned key s1 =>
          match skip_ws s1 with
          | c :: s2 =>
              if c =? 58 (* : *) then
                match scan_once fuel' (skip_ws s2) with
                | Scanned value s3 =>
                    let pairs' := pairs ++ [(key, value)] in
                    match skip_ws s3 with
                    | d :: s4 =>
                        if d =? 125 (* } *) then
                          Scanned (PyDict (dict_of_pairs pairs')) s4
                        else if d =? 44 (* , *) then
                          match skip_ws s4 with
                          | q :: s5 =>
                              if q =? QUOTE then JSONObject fuel' s5 pairs'
                              else Invalid
                          | [] => Invalid
                          end
                        else Invalid
                    | [] => Invalid
                    end
                | Invalid => Invalid
                | OutOfFuel => OutOfFuel
                end
              else Invalid
          | [] => Invalid
          end
      | Invalid => Invalid
      | OutOfFuel => OutOfFuel
      end
  end

(** The loop of [JSONArray], from the first character of an item *)
with JSONArray (fuel : nat) (s : pystr) (values : list pyobj)
  : scan pyobj :=
  match fuel with
  | O => OutOfFuel
  | S fuel' =>
      match scan_once fuel' s with
      | Scanned value s1 =>
          let values' := values ++ [value] in
          match skip_ws s1 with
          | d :: s2 =>
              if d =? 93 (* ] *) then Scanned (PyList values') s2
              else if d =? 44 (* , *) then JSONArray fuel' (skip_ws s2) values'
              else Invalid
          | [] => Invalid
          end
      | Invalid => Invalid
      | OutOfFuel => OutOfFuel
      end
  end.

(** [JSONDecoder.decode]: one value, white space around it, nothing else.
    A text that starts with a byte-order mark is refused by [loads].
    The fuel [loads] gives is never used up ([loads_total] below): its
    third case does not arise.  CPython's scanner gives up with
    [RecursionError] on a text whose lists and objects are nested deeper
    than the interpreter's recursion limit allows; that limit depends on
    the state of the interpreter and is not modelled, so such texts are
    outside the model. *)
Definition decode (fuel : nat) (s : pystr) : scan pyobj :=
  match scan_once fuel (skip_ws s) with
  | Scanned v rest =>
      match skip_ws rest with
      | [] => Scanned v []
      | _ :: _ => Invalid
      end
  | Invalid => Invalid
  | OutOfFuel => OutOfFuel
  end.

Definition loads (s : pystr) : result pyobj :=
  match s with
  | 65279 :: _ => Raise JSONDecodeError
  | _ =>
      match decode (2 * length s + 2) s with
      | Scanned v _ => Ok v
      | Invalid => Raise JSONDecodeError
      | OutOfFuel => Raise (OtherException "RecursionError")
      end
  end.

End json.

(** ** [queue.Queue]

    [Queue(maxsize)]: first in, first out; [maxsize <= 0] means no bound.
    [put] and [get] are the blocking calls of the source (no timeout):
    [put] waits while a bounded queue is full, [get] waits while the queue
    is empty.  A call that waits is reported as [Blocks]: in this
    sequential model nothing else runs that could wake it. *)

Inductive blocking (A : Type) : Type :=
| Returns (a : A)
| Blocks.
Arguments Returns {A} a.
Arguments Blocks {A}.

Module Queue.

Record t (A : Type) : Type := mk { maxsize : Z; items : list A }.
Arguments mk {A} maxsize items.

Definition new {A} (maxsize : Z) : t A := mk maxsize [].

Definition qsize {A} (q : t A) : nat := List.length (items q).

Definition full {A} (q : t A) : bool :=
  ((0 <? maxsize q) && (maxsize q <=? Z.of_nat (qsize q)))%Z.

Definition put {A} (q : t A) (x : A) : blocking (t A) :=
  if full q then Blocks else Returns (mk (maxsize q) (items q ++ [x])).

Definition get {A} (q : t A) : blocking (A * t A) :=
  match items q with
  | [] => Blocks
  | x :: rest => Returns (x, mk (maxsize q) rest)
  end.

End Queue.

(** ** [class BackendAdapter]

    An adapter object has an identity ([oid]: what Python's [is] and the
    inherited [object.__eq__] compare), a class ([type_name]) and the two
    handlers of its class.  A handler returns the lines it printed, or
    raises; what it does depends on the payload only, the external store
    of an adapter being part of the adapter. *)

Definition line := list pyobj.

Module BackendAdapter.

Record t : Type := mk {
  oid : positive;
  type_name : string;
  handle_success : pyobj -> result (list line);
  handle_failure : pyobj -> result (list line)
}.

(** [id]: [f"{type(self)}"] *)
Definition id (self : t) : pystr :=
  str "<class '" ++ str (type_name self) ++ str "'>".

(** [__hash__]: [hash(self.id())]; the hash of a string is taken to be
    the string itself. *)
Definition __hash__ (self : t) : pystr := id self.

(** [__eq__] is not defined by the class: it is [object.__eq__], the
    comparison of the two objects' identities. *)
Definition __eq__ (self other : t) : bool := Pos.eqb (oid self) (oid other).

(** An instance of the base class: both handlers are [pass]. *)
Definition new (o : positive) : t :=
  mk o "locust_plugins.backend_base.BackendAdapter"
     (fun _ => Ok []) (fun _ => Ok []).

End BackendAdapter.

(** ** [set], as [self.backends] uses it

    An element is found in a set when one with the same hash compares
    equal to it.  The elements are listed in the order the set is
    iterated; a new element is put last, which stands for the position
    its hash gives it. *)

Module pyset.

Import BackendAdapter.

Definition same (x y : t) : bool :=
  pystr_eqb (__hash__ x) (__hash__ y) && __eq__ x y.

Definition contains (s : list t) (x : t) : bool := existsb (same x) s.

Definition add (s : list t) (x : t) : list t :=
  if contains s x then s else s ++ [x].

Fixpoint discard (s : list t) (x : t) : list t :=
  match s with
  | [] => []
  | y :: s' => if same x y then s' else y :: discard s' x
  end.

(** [set.remove]: [KeyError] when the element is not in the set *)
Definition remove (s : list t) (x : t) : result (list t) :=
  if contains s x then Ok (discard s x) else Raise KeyError.

End pyset.

(** ** [class PrintAdapter] *)

Module PrintAdapter.

(** [_log_request] prints one line, the six values separated by tabs;
    the line is kept as the list of the six values. *)
Definition _log_request
    (request_type name response_time response_length success exception : pyobj)
  : list line :=
  [[request_type; name; response_time; response_length; success; exception]].

Definition request_success
    (request_type name response_time response_length : pyobj) (_kwargs : dict)
  : result (list line) :=
  Ok (_log_request request_type name response_time response_length
        (PyBool true) PyNone).

Definition request_failure
    (request_type name response_time response_length exception : pyobj)
    (_kwargs : dict)
  : result (list line) :=
  Ok (_log_request request_type name response_time response_length
        (PyBool false) exception).

(** [self.request_success( **data )]: [data] has to be a mapping; a key
    [self] clashes with the bound receiver, each of the four named
    parameters has to be among the keys, every other key goes to
    [_kwargs].  Each failure to bind is a [TypeError]. *)
Definition call_request_success (data : pyobj) : result (list line) :=
  match data with
  | PyDict d =>
      match dict_get d (str "self") with
      | Some _ => Raise TypeError
      | None =>
          match dict_get d (str "request_type"), dict_get d (str "name"),
                dict_get d (str "response_time"),
                dict_get d (str "response_length") with
          | Some request_type, Some name, Some response_time,
            Some response_length =>
              request_success request_type name response_time response_length
                (dict_del (dict_del (dict_del (dict_del d
                   (str "request_type")) (str "name"))
                   (str "response_time")) (str "response_length"))
          | _, _, _, _ => Raise TypeError
          end
      end
  | _ => Raise TypeError
  end.

Definition handle_success (data : pyobj) : result (list line) :=
  call_request_success data.

Definition handle_failure (data : pyobj) : result (list line) :=
  call_request_success data.

(** [PrintAdapter()]; the header line that [__init__] prints is not part
    of the model. *)
Definition new (o : positive) : BackendAdapter.t :=
  BackendAdapter.mk o "locust_plugins.backend_base.PrintAdapter"
    handle_success handle_failure.

End PrintAdapter.

(** ** [class ElasticSearchAdapter]

    The client library is external.  [Elasticsearch] is a client object,
    given by what its two calls answer; the class the constructor calls,
    [Elasticsearch(elastic_hosts)], is given to [__init__] below as the
    function [connect], which answers a client object or raises. *)

(** An event, as the hooks make it and as [send] wraps a payload: the
    [dict] [{"type": ..., "payload": ...}].  [add] puts any object on
    the queue; objects of another shape, on which [data["type"]] in
    [run] raises, are outside the model. *)
Record message : Type := mk_message { type : pystr; payload : pyobj }.

Record Elasticsearch : Type := mk_client {
  cluster_health : result pyobj;
  index : pystr -> message -> result pyobj
}.

Module ElasticSearchAdapter.

(** [send]: [res = self.es.index(index=self.index_name, body=data)], then
    [print(res['result'])] *)
Definition send (es : Elasticsearch) (index_name : pystr) (data : message)
  : result (list line) :=
  index es index_name data >>= fun res =>
  match res with
  | PyDict d =>
      match dict_get d (str "result") with
      | Some _ => Ok []
      | None => Raise KeyError
      end
  | _ => Raise TypeError
  end.

Definition handle_success (es : Elasticsearch) (index_name : pystr)
    (data : pyobj) : result (list line) :=
  send es index_name (mk_message (str "success") data).

Definition handle_failure (es : Elasticsearch) (index_name : pystr)
    (data : pyobj) : result (list line) :=
  send es index_name (mk_message (str "failure") data).

(** [__init__]: [self.es = Elasticsearch(elastic_hosts)] comes first,
    before the test of [verify_connection] and outside the [try]: what
    it raises leaves [__init__] as it is.  The probe is
    [self.es.cluster.health()] inside [try]; a [ConnectionError] is
    re-raised as [AdapterError], and so is, by the bare [except],
    anything else. *)
Definition __init__ (o : positive)
    (connect : pyobj -> result Elasticsearch) (elastic_hosts : pyobj)
    (index_name : pystr) (verify_connection : bool)
  : result BackendAdapter.t :=
  connect elastic_hosts >>= fun es =>
  let self :=
    BackendAdapter.mk o "locust_plugins.backend_base.ElasticSearchAdapter"
      (handle_success es index_name) (handle_failure es index_name) in
  if verify_connection then
    match cluster_health es with
    | Ok _ => Ok self
    | Raise ConnectionError => Raise AdapterError
    | Raise _ => Raise AdapterError
    end
  else Ok self.

(** The defaults of [__init__] *)
Definition default_hosts : pyobj := PyList [PyStr (str "http://localhost:9200")].
Definition default_index_name : pystr := str "locust".

End ElasticSearchAdapter.

(** The lines that [send] and [__init__] print are left out above: they
    show the [repr] of objects, which is not modelled. *)

(** ** [class ForwardingListener]

    The [print] calls of the listener are diagnostics and are left out. *)

(** Outcome of a method that may put on the queue *)
Inductive outcome (A : Type) : Type :=
| Done (a : A)
| Raised (e : exn)
| Blocked.
Arguments Done {A} a.
Arguments Raised {A} e.
Arguments Blocked {A}.

(** One call of a handler by the dispatch loop *)
Inductive handler : Type := HandleSuccess | HandleFailure.

Record delivery : Type := mk_delivery {
  receiver : positive;
  via : handler;
  data : pyobj
}.

(** What the loop has done so far: the handler calls it made, in order,
    and the lines the handlers printed. *)
Record effects : Type := mk_effects {
  calls : list delivery;
  stdout : list line
}.

Inductive loop_end : Type :=
| Returned                 (* [self.quit] was seen set: [run] returned *)
| WaitingInGet             (* inside [forwarder_queue.get()], queue empty *)
| Escaped (e : exn).       (* an exception left [run] *)

Module ForwardingListener.

Record t : Type := mk {
  backends : list BackendAdapter.t;
  quit : bool;
  forwarder_queue : Queue.t message
}.

(** [__init__]; what [BaseListener.__init__] does (it is not among the
    sources) is left out. *)
Definition __init__ : t := mk [] false (Queue.new 0).

Definition add_backend (self : t) (backend_adapter : BackendAdapter.t) : t :=
  mk (pyset.add (backends self) backend_adapter) (quit self)
     (forwarder_queue self).

Definition remove_backend (self : t) (backend_adapter : BackendAdapter.t)
  : result t :=
  pyset.remove (backends self) backend_adapter >>= fun s =>
  Ok (mk s (quit self) (forwarder_queue self)).

Definition add (self : t) (data : message) : outcome t :=
  match Queue.put (forwarder_queue self) data with
  | Returns q => Done (mk (backends self) (quit self) q)
  | Blocks => Blocked
  end.

Definition OK_TEMPLATE : pystr :=
  dq "{'request_type':'%s', 'name':'%s', 'response_time':%s, 'response_length':%s, 'other':%s}".

Definition ERR_TEMPLATE : pystr :=
  dq "{'request_type':'%s', 'name':'%s', 'response_time':%s, 'exception':'%s', 'other':%s}".

(** The two hooks, from their first line on.  [kwargs] is the [dict]
    that the call has bound to the keywords left over; a call with a
    keyword that bears the name of a parameter is refused by Python with
    [TypeError] before the first line, and is no call of these
    functions ([keyword_clash] below). *)
Definition request_success (self : t)
    (request_type name response_time response_length : pyarg)
    (kwargs : list (pystr * pyarg)) : outcome t :=
  match
    (json.dumps kwargs >>= fun other =>
     percent_format OK_TEMPLATE
       [request_type; name; response_time; response_length; AStr other]
     >>= fun json_string =>
     json.loads json_string >>= fun payload =>
     Ok (mk_message (str "success") payload))
  with
  | Ok message => add self message
  | Raise e => Raised e
  end.

Definition request_failure (self : t)
    (request_type name response_time exception : pyarg)
    (kwargs : list (pystr * pyarg)) : outcome t :=
  match
    (json.dumps kwargs >>= fun other =>
     percent_format ERR_TEMPLATE
       [request_type; name; AStr (str "ERR"); response_time; exception;
        AStr other]
     >>= fun json_string =>
     json.loads json_string >>= fun payload =>
     Ok (mk_message (str "failure") payload))
  with
  | Ok message => add self message
  | Raise e => Raised e
  end.

(** The body of [for backend in self.backends], for one dequeued
    [data]: the handler is chosen by [data["type"]]; the first handler
    that raises ends the iteration, the exception goes on upwards. *)
Fixpoint for_backend (bs : list BackendAdapter.t) (d : message) (w : effects)
  : effects * option exn :=
  match bs with
  | [] => (w, None)
  | backend :: bs' =>
      let failure := pystr_eqb (type d) (str "failure") in
      let r :=
        if failure then BackendAdapter.handle_failure backend (payload d)
        else BackendAdapter.handle_success backend (payload d) in
      let call :=
        mk_delivery (BackendAdapter.oid backend)
          (if failure then HandleFailure else HandleSuccess) (payload d) in
      match r with
      | Ok printed =>
          for_backend bs' d (mk_effects (calls w ++ [call]) (stdout w ++ printed))
      | Raise e => (mk_effects (calls w ++ [call]) (stdout w), Some e)
      end
  end.

(** The [while not self.quit] loop over the queue's content.  [in_get]
    tells where control is: [false] at the loop test, [true] inside
    [forwarder_queue.get()], where [self.quit] is not looked at.  The
    match on [items] is [Queue.get]: it waits on the empty queue and
    takes the first element otherwise ([loop_takes_as_get] below).  The
    flag and the set of backends are those of [self]: nothing in the
    loop changes them. *)
Fixpoint loop (quit : bool) (bs : list BackendAdapter.t) (in_get : bool)
    (items : list message) (w : effects)
  : loop_end * list message * effects :=
  if negb in_get && quit then (Returned, items, w)
  else
    match items with
    | [] => (WaitingInGet, [], w)
    | d :: items' =>
        match for_backend bs d w with
        | (w', Some e) => (Escaped e, items', w')
        | (w', None) => loop quit bs false items' w'
        end
    end.

Definition run_from (in_get : bool) (self : t) (w : effects)
  : loop_end * t * effects :=
  match loop (quit self) (backends self) in_get
          (Queue.items (forwarder_queue self)) w with
  | (e, items', w') =>
      (e, mk (backends self) (quit self)
             (Queue.mk (Queue.maxsize (forwarder_queue self)) items'), w')
  end.

(** [run], called with nothing done yet *)
Definition run (self : t) : loop_end * t * effects :=
  run_from false self (mk_effects [] []).

End ForwardingListener.

Import ForwardingListener.

(** * Vocabulary of the statements *)

(** ** Arguments of the success hook *)

(** A character that can stand between the double quotes of the
    template as it is: not a double quote, not a backslash, not a
    control character. *)
Definition plain_char (c : N) : Prop := c <> QUOTE /\ c <> BACKSLASH /\ 32 <= c.

Definition plainb (c : N) : bool :=
  negb (c =? QUOTE) && negb (c =? BACKSLASH) && (32 <=? c).

(** A character of a string that [dumps] and [loads] carry unchanged: a
    Unicode scalar value (a code point that is not a surrogate). *)
Definition scalar_value (c : N) : Prop :=
  c < 55296 \/ (57344 <= c /\ c < 1114112).

(** The values of keyword arguments that [dumps] accepts and [loads]
    gives back, and what [loads] gives back for them. *)
Definition serializable (a : pyarg) : Prop :=
  match a with
  | AStr s => Forall scalar_value s
  | AException _ => False
  | _ => True
  end.

Definition obj_of_arg (a : pyarg) : pyobj :=
  match a with
  | ANone => PyNone
  | ABool b => PyBool b
  | AInt z => PyInt z
  | AStr s => PyStr s
  | AException _ => PyNone
  end.

Definition item_ok (kv : pystr * pyarg) : Prop :=
  Forall scalar_value (fst kv) /\ serializable (snd kv).

Definition pair_of_item (kv : pystr * pyarg) : pystr * pyobj :=
  (fst kv, obj_of_arg (snd kv)).

(** Keyword arguments are a [dict]: no key twice. *)
Definition kwargs_ok (kw : list (pystr * pyarg)) : Prop :=
  NoDup (map fst kw) /\ Forall item_ok kw.

(** The payload of the event for the given request type, name, time,
    length and keyword arguments. *)
Definition success_payload (rt nm : pystr) (t len : Z)
    (kw : list (pystr * pyarg)) : pyobj :=
  PyDict [(str "request_type", PyStr rt); (str "name", PyStr nm);
          (str "response_time", PyInt t); (str "response_length", PyInt len);
          (str "other", PyDict (map pair_of_item kw))].

(** ** The texts that are written and read back *)

(** What [dumps] writes for a value, an item and a [dict] of keyword
    arguments; an item's text is given from after its opening quote,
    where [JSONObject] starts. *)
Definition value_text (a : pyarg) : pystr :=
  match a with
  | ANone => str "null"
  | ABool true => str "true"
  | ABool false => str "false"
  | AInt z => int_repr z
  | AStr s => json.encode_basestring_ascii s
  | AException _ => []
  end.

Definition item_body (kv : pystr * pyarg) : pystr :=
  flat_map json.escape_char (fst kv) ++ QUOTE :: str ": " ++ value_text (snd kv).

Fixpoint items_body (kv : pystr * pyarg) (kw : list (pystr * pyarg)) : pystr :=
  match kw with
  | [] => item_body kv
  | kv' :: kw' => item_body kv ++ str ", " ++ QUOTE :: items_body kv' kw'
  end.

Definition dumps_text (kw : list (pystr * pyarg)) : pystr :=
  match kw with
  | [] => str "{}"
  | kv :: kw' => 123 :: QUOTE :: items_body kv kw' ++ [125]
  end.

(** [OK_TEMPLATE] with its five conversions filled in *)
Definition success_text (rt nm : pystr) (t len : Z) (other : pystr) : pystr :=
  123 :: QUOTE :: str "request_type" ++ QUOTE :: 58 :: QUOTE :: rt ++
  QUOTE :: 44 :: 32 :: QUOTE :: str "name" ++ QUOTE :: 58 :: QUOTE :: nm ++
  QUOTE :: 44 :: 32 :: QUOTE :: str "response_time" ++ QUOTE :: 58 ::
    int_repr t ++
  44 :: 32 :: QUOTE :: str "response_length" ++ QUOTE :: 58 ::
    int_repr len ++
  44 :: 32 :: QUOTE :: str "other" ++ QUOTE :: 58 :: other ++ [125].

(** The four hexadecimal digits of an escape *)
Definition hex4 (n : N) : pystr :=
  [json.hex_char (n / 4096 mod 16); json.hex_char (n / 256 mod 16);
   json.hex_char (n / 16 mod 16); json.hex_char (n mod 16)].

(** One step of reading a decimal number *)
Definition horner (acc c : N) : N := acc * 10 + (c - 48).

Definition not_digit_first (s : pystr) : Prop :=
  match s with
  | [] => True
  | c :: _ => json.is_digit c = false
  end.

(** What follows a number in a text: not a digit, a point or an exponent
    mark. *)
Definition ends_number (rest : pystr) : Prop :=
  match rest with
  | [] => True
  | c :: _ => json.is_digit c = false /\ c <> 46 /\ c <> 101 /\ c <> 69
  end.

(** What follows a value in an object: a comma or the closing brace. *)
Definition after_value (rest : pystr) : Prop :=
  exists r, rest = 44 :: r \/ rest = 125 :: r.

(** What a scanner leaves is shorter than what it was given, and it
    does not run out of fuel. *)
Definition consumed {A} (r : json.scan A) (s : pystr) : Prop :=
  match r with
  | json.Scanned _ rest => (List.length rest < List.length s)%nat
  | json.Invalid => True
  | json.OutOfFuel => False
  end.

(** ** The dispatch loop *)

(** The handler call the loop makes for the event [d] on the backend
    [b], its outcome and its record among the calls. *)
Definition is_failure (d : message) : bool := pystr_eqb (type d) (str "failure").

Definition invoke (b : BackendAdapter.t) (d : message) : result (list line) :=
  if is_failure d then BackendAdapter.handle_failure b (payload d)
  else BackendAdapter.handle_success b (payload d).

Definition call_of (b : BackendAdapter.t) (d : message) : delivery :=
  mk_delivery (BackendAdapter.oid b)
    (if is_failure d then HandleFailure else HandleSuccess) (payload d).

Definition returns (b : BackendAdapter.t) (d : message) : Prop :=
  exists printed, invoke b d = Ok printed.

Definition all_return (bs : list BackendAdapter.t) (items : list message) : Prop :=
  forall d, In d items -> Forall (fun b => returns b d) bs.

(** The calls that went to [b], in the order they were made *)
Definition deliveries_to (b : BackendAdapter.t) (w : effects) : list delivery :=
  filter (fun c => Pos.eqb (receiver c) (BackendAdapter.oid b)) (calls w).

(** The objects in the registry; a set holds no object twice. *)
Definition oids (bs : list BackendAdapter.t) : list positive :=
  map BackendAdapter.oid bs.

(** ** The queue *)

Definition unbounded (self : ForwardingListener.t) : Prop :=
  (Queue.maxsize (forwarder_queue self) <= 0)%Z.

(** [add] called for each event of [ds] in turn *)
Fixpoint add_all (self : ForwardingListener.t) (ds : list message)
  : outcome ForwardingListener.t :=
  match ds with
  | [] => Done self
  | d :: ds' =>
      match add self d with
      | Done self' => add_all self' ds'
      | Raised e => Raised e
      | Blocked => Blocked
      end
  end.

(** ** The Elasticsearch probe *)

Definition probe_fails (es : Elasticsearch) : Prop :=
  exists e, cluster_health es = Raise e.

(** ** Fixtures *)

(** A backend whose handlers always raise *)
Definition FailingAdapter (o : positive) : BackendAdapter.t :=
  BackendAdapter.mk o "tests.FailingAdapter"
    (fun _ => Raise (OtherException "RuntimeError"))
    (fun _ => Raise (OtherException "RuntimeError")).

Definition login_event : message :=
  mk_message (str "success")
    (PyDict [(str "request_type", PyStr (str "POST"));
             (str "name", PyStr (str "/login"));
             (str "response_time", PyInt 120);
             (str "response_length", PyInt 512);
             (str "other", PyDict [])]).

Definition logout_event : message :=
  mk_message (str "success")
    (PyDict [(str "request_type", PyStr (str "GET"));
             (str "name", PyStr (str "/logout"));
             (str "response_time", PyInt 35);
             (str "response_length", PyInt 0);
             (str "other", PyDict [])]).

Definition five_events : list message :=
  [login_event; logout_event; login_event; logout_event; login_event].

(** A cluster that answers, and one that cannot be reached *)
Definition reachable : Elasticsearch :=
  mk_client (Ok (PyDict [(str "status", PyStr (str "green"))]))
    (fun _ _ => Ok (PyDict [(str "result", PyStr (str "created"))])).

Definition unreachable : Elasticsearch :=
  mk_client (Raise ConnectionError) (fun _ _ => Raise ConnectionError).

(** A client class that makes a client for [None] (its own default), a
    host or a list of hosts, and refuses a value it cannot iterate
    over *)
Definition client_class (es : Elasticsearch) (hosts : pyobj)
  : result Elasticsearch :=
  match hosts with
  | PyNone | PyStr _ | PyList _ => Ok es
  | _ => Raise TypeError
  end.

(** The payload [ERR_TEMPLATE] describes *)
Definition failure_payload : pyobj :=
  PyDict [(str "request_type", PyStr (str "POST"));
          (str "name", PyStr (str "/login"));
          (str "response_time", PyInt 120);
          (str "exception", PyStr (str "boom"));
          (str "other", PyDict [])].

(** A listener as [__init__] makes it, with the given registry, flag and
    queue content *)
Definition listening (bs : list BackendAdapter.t) (quit : bool)
    (items : list message) : ForwardingListener.t :=
  ForwardingListener.mk bs quit (Queue.mk 0 items).

(** ** A listener driven through its methods *)

(** An event as the success hook makes it *)
Definition success_event (m : message) : Prop :=
  type m = str "success" /\ exists d, payload m = PyDict d.

(** The listeners one gets from [ForwardingListener()] by registering and
    removing adapter objects, by the two hooks and by letting [run] work
    on the queue.  [heap] gives the adapter object that has a given
    identity.  Events come in through the two hooks only: [add] is what
    the hooks call, and a listener on which [add] was called from
    outside, with an event of the caller's making, is not among
    these. *)
Inductive driven (heap : positive -> BackendAdapter.t)
  : ForwardingListener.t -> Prop :=
| driven_init : driven heap ForwardingListener.__init__
| driven_add_backend (self : ForwardingListener.t) (o : positive) :
    driven heap self -> driven heap (add_backend self (heap o))
| driven_remove_backend (self self' : ForwardingListener.t) (o : positive) :
    driven heap self -> remove_backend self (heap o) = Ok self' ->
    driven heap self'
| driven_request_success (self self' : ForwardingListener.t)
    (request_type name response_time response_length : pyarg)
    (kwargs : list (pystr * pyarg)) :
    driven heap self ->
    request_success self request_type name response_time response_length
      kwargs = Done self' ->
    driven heap self'
| driven_request_failure (self self' : ForwardingListener.t)
    (request_type name response_time exception : pyarg)
    (kwargs : list (pystr * pyarg)) :
    driven heap self ->
    request_failure self request_type name response_time exception kwargs
    = Done self' ->
    driven heap self'
| driven_run (self : ForwardingListener.t) :
    driven heap self -> driven heap (snd (fst (run self))).

(** What such a listener keeps *)
Record kept (heap : positive -> BackendAdapter.t) (self : ForwardingListener.t)
  : Prop := mk_kept {
  kept_quit : quit self = false;
  kept_maxsize : Queue.maxsize (forwarder_queue self) = 0%Z;
  kept_distinct : NoDup (oids (backends self));
  kept_objects : forall b, In b (backends self) -> b = heap (BackendAdapter.oid b);
  kept_events : Forall success_event (Queue.items (forwarder_queue self))
}.

(** ** The success hook on values that are not numbers *)

(** [OK_TEMPLATE] filled with five texts *)
Definition hook_text (a1 a2 a3 a4 other : pystr) : pystr :=
  123 :: QUOTE :: str "request_type" ++ QUOTE :: 58 :: QUOTE :: a1 ++
  QUOTE :: 44 :: 32 :: QUOTE :: str "name" ++ QUOTE :: 58 :: QUOTE :: a2 ++
  QUOTE :: 44 :: 32 :: QUOTE :: str "response_time" ++ QUOTE :: 58 :: a3 ++
  44 :: 32 :: QUOTE :: str "response_length" ++ QUOTE :: 58 :: a4 ++
  44 :: 32 :: QUOTE :: str "other" ++ QUOTE :: 58 :: other ++ [125].

(** [None], [True] and [False]: [str()] writes them as no JSON value is
    written. *)
Definition not_json (a : pyarg) : Prop :=
  a = ANone \/ exists b, a = ABool b.

(** ** Calls that the interpreter accepts *)

(** The parameters of the success hook.  A keyword argument that bears
    one of these names clashes with the parameter: Python refuses the
    call ("got multiple values for argument"). *)
Definition hook_parameters : list pystr :=
  [str "self"; str "request_type"; str "name"; str "response_time";
   str "response_length"].

Definition keyword_clash (kw : list (pystr * pyarg)) : bool :=
  existsb (fun kv => existsb (pystr_eqb (fst kv)) hook_parameters) kw.

(** An integer of at most 4300 digits, which every CPython writes and
    reads *)
Definition few_digits (z : Z) : bool :=
  (List.length (int_repr (Z.abs z)) <=? 4300)%nat.

Definition arg_few_digits (a : pyarg) : bool :=
  match a with
  | AInt z => few_digits z
  | _ => true
  end.

Definition kwargs_few_digits (kw : list (pystr * pyarg)) : bool :=
  forallb (fun kv => arg_few_digits (snd kv)) kw.

(** * Properties *)

Local Arguments N.eqb : simpl never.
Local Arguments N.ltb : simpl never.
Local Arguments N.leb : simpl never.
Local Arguments N.mul : simpl never.
Local Arguments N.add : simpl never.
Local Arguments N.sub : simpl never.

(** ** The model of [json] on sample texts

    Each line is what CPython answers on the same text. *)

Example loads_escaped_quote :
  json.loads (dq "{'n':'a\'b'}") = Ok (PyDict [(str "n", PyStr (dq "a'b"))]).
Proof. reflexivity. Qed.

Example loads_bare_quote :
  json.loads (dq "{'n':'a'b'}") = Raise JSONDecodeError.
Proof. reflexivity. Qed.

Example loads_lone_backslash :
  json.loads (dq "{'n':'\'}") = Raise JSONDecodeError.
Proof. reflexivity. Qed.

Example loads_two_backslashes :
  json.loads (dq "{'n':'\\'}") = Ok (PyDict [(str "n", PyStr [BACKSLASH])]).
Proof. reflexivity. Qed.

Example loads_nested :
  json.loads (dq "{'a': [1, 2.5e3, 'x\n', null, true], 'b': {}, 'a': -0}")
  = Ok (PyDict [(str "a", PyInt 0); (str "b", PyDict [])]).
Proof. reflexivity. Qed.

Example loads_float_kept_as_text :
  json.loads (dq " [1e5, -Infinity, 0.25] ")
  = Ok (PyList [PyFloat (str "1e5"); PyFloat (str "-Infinity");
                PyFloat (str "0.25")]).
Proof. reflexivity. Qed.

Example loads_leading_zero :
  json.loads (dq "{'a':01}") = Raise JSONDecodeError.
Proof. reflexivity. Qed.

Example loads_control_character :
  json.loads (QUOTE :: 9 :: [QUOTE]) = Raise JSONDecodeError.
Proof. reflexivity. Qed.

Example loads_surrogate_pair :
  json.loads (dq "'\ud800\udc00'") = Ok (PyStr [65536]).
Proof. reflexivity. Qed.

Example loads_lone_surrogate :
  json.loads (dq "'\ud800A'") = Ok (PyStr [55296; 65]).
Proof. reflexivity. Qed.

Example loads_trailing_comma :
  json.loads (dq "{'a':1,}") = Raise JSONDecodeError.
Proof. reflexivity. Qed.

Example dumps_escapes :
  json.dumps [(str "k", AStr (dq "a'b\c" ++ [127; 233; 74565; 10; 1]));
              (str "n", AInt (-12)); (str "z", ANone); (str "t", ABool true)]
  = Ok (dq "{'k': 'a\'b\\c\u007f\u00e9\ud808\udf45\n\u0001', 'n': -12, 'z': null, 't': true}").
Proof. reflexivity. Qed.

Example dumps_exception :
  json.dumps [(str "e", AException (str "boom"))] = Raise TypeError.
Proof. reflexivity. Qed.

Example percent_too_few :
  percent_format (dq "{'a':'%s', 'b':%s}") [AStr (str "x")] = Raise TypeError.
Proof. reflexivity. Qed.

Example percent_too_many :
  percent_format (dq "{'a':'%s', 'b':%s}") [AStr (str "x"); AInt 1; AInt 2]
  = Raise TypeError.
Proof. reflexivity. Qed.

(** ** Strings *)

Lemma pystr_eqb_refl (a : pystr) : pystr_eqb a a = true.
Proof.
  induction a as [|x a IH]; simpl; [reflexivity|].
  now rewrite N.eqb_refl, IH.
Qed.

Lemma pystr_eqb_eq (a b : pystr) : pystr_eqb a b = true <-> a = b.
Proof.
  split; [|intros ->; apply pystr_eqb_refl].
  revert b; induction a as [|x a IH]; intros [|y b]; simpl; try discriminate; auto.
  rewrite andb_true_iff, N.eqb_eq. intros [-> H]. f_equal. now apply IH.
Qed.

Lemma pystr_eqb_neq (a b : pystr) : pystr_eqb a b = false <-> a <> b.
Proof.
  rewrite <- pystr_eqb_eq. destruct (pystr_eqb a b); split; congruence.
Qed.

(** ** Reading back what was written: strings and numbers *)

Lemma scanstring_plain (s : pystr) :
  forall rest fuel, Forall plain_char s -> (List.length s < fuel)%nat ->
    json.scanstring fuel (s ++ QUOTE :: rest) = json.Scanned s rest.
Proof.
  induction s as [|c s IH]; intros rest fuel Hs Hf;
    (destruct fuel as [|fuel]; [simpl in Hf; lia|]).
  - reflexivity.
  - inversion_clear Hs as [|? ? (Hq & Hb & Hc) Hs']. simpl in Hf.
    rewrite <- app_comm_cons. cbn [json.scanstring].
    apply N.eqb_neq in Hq, Hb. rewrite Hq, Hb.
    assert ((c <? 32) = false) as -> by (apply N.ltb_ge; exact Hc).
    rewrite IH by (auto; lia). reflexivity.
Qed.

Lemma uint_chars_digits (d : Decimal.uint) :
  Forall (fun c => json.is_digit c = true) (uint_chars d).
Proof. induction d; simpl; constructor; auto. Qed.

Lemma take_digits_app (ds rest : pystr) :
  Forall (fun c => json.is_digit c = true) ds -> not_digit_first rest ->
  json.take_digits (ds ++ rest) = (ds, rest).
Proof.
  induction 1 as [|c ds Hc _ IH]; intros Hr.
  - destruct rest as [|c rest]; simpl; [reflexivity|].
    simpl in Hr. now rewrite Hr.
  - simpl. rewrite Hc, IH by assumption. reflexivity.
Qed.

Lemma fold_uint_acc (d : Decimal.uint) :
  forall acc : positive,
    fold_left horner (uint_chars d) (Npos acc) = Npos (Pos.of_uint_acc d acc).
Proof.
  induction d; intros acc; cbn [uint_chars fold_left Pos.of_uint_acc];
    try reflexivity;
    rewrite <- IHd; f_equal; unfold horner, digit_char; lia.
Qed.

Lemma fold_uint (d : Decimal.uint) :
  fold_left horner (uint_chars d) 0 = Pos.of_uint d.
Proof.
  induction d; cbn [uint_chars fold_left Pos.of_uint]; try reflexivity;
    try (rewrite <- fold_uint_acc; f_equal; unfold horner, digit_char; lia).
  rewrite <- IHd. f_equal.
Qed.

Lemma digits_value_to_uint (p : positive) :
  json.digits_value (uint_chars (Pos.to_uint p)) = Npos p.
Proof.
  unfold json.digits_value. change (fun acc c : N => acc * 10 + (c - 48)) with horner.
  rewrite fold_uint. apply DecimalPos.Unsigned.of_to.
Qed.

Lemma to_uint_head (p : positive) :
  exists c ds, uint_chars (Pos.to_uint p) = c :: ds
               /\ json.is_digit c = true /\ c <> 48.
Proof.
  pose proof (DecimalPos.Unsigned.to_of (Pos.to_uint p)) as H.
  rewrite DecimalPos.Unsigned.of_to in H. simpl in H.
  pose proof (DecimalPos.Unsigned.to_uint_nonzero p) as Hz.
  unfold Decimal.unorm in H.
  destruct (Pos.to_uint p) eqn:E.
  all: try (simpl; eexists _, _; split; [reflexivity|]; split;
            [reflexivity| unfold digit_char; lia]).
  - now destruct Hz.
  - exfalso. simpl in H.
    destruct (Decimal.nzhead u) eqn:Eu; try discriminate.
    + injection H as H'. subst u. now apply Hz.
    + eapply (DecimalFacts.nzhead_nonzero u). rewrite Eu. reflexivity.
Qed.

Lemma is_digit_spec (c : N) : json.is_digit c = true <-> 48 <= c <= 57.
Proof.
  unfold json.is_digit. rewrite andb_true_iff, !N.leb_le. tauto.
Qed.

Lemma ends_number_not_digit rest : ends_number rest -> not_digit_first rest.
Proof. destruct rest; simpl; tauto. Qed.

Lemma match_frac_none (rest : pystr) :
  ends_number rest -> json.match_frac rest = ([], rest).
Proof.
  destruct rest as [|c rest]; simpl; [reflexivity|].
  intros (_ & H & _). apply N.eqb_neq in H. now rewrite H.
Qed.

Lemma match_exp_none (rest : pystr) :
  ends_number rest -> json.match_exp rest = ([], rest).
Proof.
  destruct rest as [|c rest]; simpl; [reflexivity|].
  intros (_ & _ & H1 & H2). apply N.eqb_neq in H1, H2. now rewrite H1, H2.
Qed.

Lemma match_integer_to_uint (p : positive) (rest : pystr) :
  ends_number rest ->
  json.match_integer (uint_chars (Pos.to_uint p) ++ rest)
  = Some (uint_chars (Pos.to_uint p), rest).
Proof.
  intros Hr. pose proof (uint_chars_digits (Pos.to_uint p)) as Hd.
  destruct (to_uint_head p) as (c & ds & E & Hc & Hz).
  rewrite E in *. inversion_clear Hd as [|? ? _ Hds].
  cbn [json.match_integer app].
  apply N.eqb_neq in Hz. rewrite Hz, Hc.
  rewrite take_digits_app by auto using ends_number_not_digit. reflexivity.
Qed.

Lemma match_number_int_repr (z : Z) (rest : pystr) :
  ends_number rest ->
  json.match_number (int_repr z ++ rest) = Some (PyInt z, rest).
Proof.
  intros Hr. destruct z as [|p|p]; unfold int_repr.
  - change (str "0" ++ rest) with (48 :: rest).
    unfold json.match_number. change (48 =? 45) with false.
    cbn [json.match_integer]. change (48 =? 48) with true. cbv iota.
    rewrite match_frac_none, match_exp_none by assumption. reflexivity.
  - unfold json.match_number.
    destruct (to_uint_head p) as (c & ds & E & Hc & Hz).
    assert ((c =? 45) = false) as H45
        by (apply is_digit_spec in Hc; apply N.eqb_neq; lia).
    pose proof (match_integer_to_uint p rest Hr) as Hm.
    rewrite E in *. cbn [app] in *. rewrite H45, Hm.
    rewrite match_frac_none, match_exp_none by assumption.
    rewrite <- E, digits_value_to_uint. reflexivity.
  - change (str "-" ++ uint_chars (Pos.to_uint p)) with (45 :: uint_chars (Pos.to_uint p)).
    unfold json.match_number. cbn [app]. change (45 =? 45) with true. cbv iota.
    rewrite match_integer_to_uint by assumption.
    rewrite match_frac_none, match_exp_none by assumption.
    rewrite digits_value_to_uint. reflexivity.
Qed.

Lemma int_repr_head (z : Z) :
  exists c tl, int_repr z = c :: tl /\ (json.is_digit c = true \/ c = 45).
Proof.
  destruct z as [|p|p]; unfold int_repr.
  - exists 48, []. split; [reflexivity|left; reflexivity].
  - destruct (to_uint_head p) as (c & ds & E & Hc & _). exists c, ds. auto.
  - exists 45, (uint_chars (Pos.to_uint p)). split; [reflexivity|now right].
Qed.

Lemma literal_mismatch (text : string) (v : pyobj) (c x : N) (s p : pystr) :
  str text = x :: p -> x <> c -> json.literal text v (c :: s) = None.
Proof.
  intros E H. unfold json.literal. rewrite E. cbn [strip_prefix].
  apply N.eqb_neq in H. now rewrite H.
Qed.

Lemma scan_atom_int_repr (z : Z) (rest : pystr) :
  ends_number rest ->
  json.scan_atom (int_repr z ++ rest) = Some (PyInt z, rest).
Proof.
  intros Hr. unfold json.scan_atom.
  rewrite (match_number_int_repr z rest Hr).
  destruct (int_repr_head z) as (c & tl & E & Hc). rewrite E.
  assert (110 <> c /\ 116 <> c /\ 102 <> c) as (Hn & Ht & Hf)
      by (destruct Hc as [Hc| ->]; [apply is_digit_spec in Hc|]; lia).
  cbn [List.app].
  rewrite (@literal_mismatch "null" _ _ 110 _ _ eq_refl Hn).
  rewrite (@literal_mismatch "true" _ _ 116 _ _ eq_refl Ht).
  rewrite (@literal_mismatch "false" _ _ 102 _ _ eq_refl Hf).
  reflexivity.
Qed.

Lemma scan_once_int_repr (z : Z) (rest : pystr) (fuel : nat) :
  ends_number rest ->
  json.scan_once (S fuel) (int_repr z ++ rest) = json.Scanned (PyInt z) rest.
Proof.
  intros Hr. pose proof (scan_atom_int_repr z rest Hr) as H.
  destruct (int_repr_head z) as (c & tl & E & Hc). rewrite E in *.
  assert (c <> QUOTE /\ c <> 123 /\ c <> 91) as (H1 & H2 & H3)
      by (unfold QUOTE; destruct Hc as [Hc| ->]; [apply is_digit_spec in Hc|]; lia).
  apply N.eqb_neq in H1, H2, H3.
  cbn [List.app json.scan_once] in *. rewrite H1, H2, H3, H. reflexivity.
Qed.

Lemma hex_value_hex_char (d : N) :
  d < 16 -> json.hex_value (json.hex_char d) = Some d.
Proof.
  intros H. unfold json.hex_value, json.hex_char.
  destruct (N.ltb_spec d 10).
  - destruct (N.leb_spec 48 (48 + d)); [|lia].
    destruct (N.leb_spec (48 + d) 57); [|lia].
    cbn [andb]. f_equal. lia.
  - destruct (N.leb_spec 48 (87 + d)); [|lia].
    destruct (N.leb_spec (87 + d) 57); [lia|].
    destruct (N.leb_spec 97 (87 + d)); [|lia].
    destruct (N.leb_spec (87 + d) 102); [|lia].
    cbn [andb]. f_equal. lia.
Qed.

Lemma u_escape_eq (n : N) : json.u_escape n = BACKSLASH :: 117 :: hex4 n.
Proof. reflexivity. Qed.

Lemma decode_hex4 (n : N) (tail : pystr) :
  n < 65536 -> json.decode_uXXXX (hex4 n ++ tail) = Some (n, tail).
Proof.
  intros H. unfold hex4. cbn [List.app json.decode_uXXXX].
  rewrite !hex_value_hex_char by (apply N.mod_lt; lia).
  f_equal. f_equal.
  zify. Z.to_euclidean_division_equations. lia.
Qed.

Lemma lor_shiftl_low (a x k : N) :
  x < 2 ^ k -> N.lor (N.shiftl a k) x = a * 2 ^ k + x.
Proof.
  intros H.
  assert (N.land (N.shiftl a k) x = 0) as H0.
  { apply N.bits_inj. intros m. rewrite N.land_spec, N.bits_0.
    destruct (N.lt_ge_cases m k) as [Hm|Hm].
    - now rewrite N.shiftl_spec_low.
    - destruct (N.eq_dec x 0) as [->|Hx]; [now rewrite N.bits_0, andb_false_r|].
      rewrite (N.bits_above_log2 x m), andb_false_r; [reflexivity|].
      apply N.log2_lt_pow2; [lia|].
      apply N.lt_le_trans with (2 ^ k); [assumption|].
      apply N.pow_le_mono_r; lia. }
  rewrite <- N.lxor_lor, <- N.add_nocarry_lxor by assumption.
  now rewrite N.shiftl_mul_pow2.
Qed.

Lemma high_surrogate (n : N) :
  n < 1048576 ->
  N.lor 55296 (N.land (N.shiftr n 10) 1023) = 55296 + n / 1024.
Proof.
  intros H. change 1023 with (N.ones 10). change 55296 with (N.shiftl 54 10) at 1.
  rewrite N.land_ones, N.shiftr_div_pow2. change (2 ^ 10) with 1024.
  rewrite lor_shiftl_low by (change (2 ^ 10) with 1024; apply N.mod_lt; lia).
  change (2 ^ 10) with 1024.
  zify. Z.to_euclidean_division_equations. lia.
Qed.

Lemma low_surrogate (n : N) :
  N.lor 56320 (N.land n 1023) = 56320 + n mod 1024.
Proof.
  change 1023 with (N.ones 10). change 56320 with (N.shiftl 55 10) at 1.
  rewrite N.land_ones. change (2 ^ 10) with 1024.
  rewrite lor_shiftl_low by (change (2 ^ 10) with 1024; apply N.mod_lt; lia).
  reflexivity.
Qed.

Lemma join_surrogates (n : N) :
  n < 1048576 ->
  65536 + N.lor (N.shiftl (55296 + n / 1024 - 55296) 10)
                (56320 + n mod 1024 - 56320) = 65536 + n.
Proof.
  intros H.
  rewrite lor_shiftl_low by (change (2 ^ 10) with 1024;
    zify; Z.to_euclidean_division_equations; lia).
  change (2 ^ 10) with 1024.
  zify. Z.to_euclidean_division_equations. lia.
Qed.

Lemma scan_unicode_escape_char (c : N) (tail : pystr) :
  scalar_value c -> c < 65536 ->
  json.scan_unicode_escape (hex4 c ++ tail) = Some (c, tail).
Proof.
  intros Hc Hlt. unfold json.scan_unicode_escape.
  rewrite (decode_hex4 tail Hlt).
  assert ((55296 <=? c) && (c <=? 56319) = false) as ->; [|reflexivity].
  unfold scalar_value in Hc. apply andb_false_iff.
  rewrite N.leb_gt, N.leb_gt. lia.
Qed.

Lemma scan_unicode_escape_pair (c : N) (tail : pystr) :
  65536 <= c < 1114112 ->
  json.scan_unicode_escape
    (hex4 (N.lor 55296 (N.land (N.shiftr (c - 65536) 10) 1023))
       ++ json.u_escape (N.lor 56320 (N.land (c - 65536) 1023)) ++ tail)
  = Some (c, tail).
Proof.
  intros Hc. set (n := c - 65536). assert (n < 1048576) as Hn by lia.
  rewrite (high_surrogate Hn), low_surrogate.
  assert (55296 + n / 1024 < 65536) as H1
      by (zify; Z.to_euclidean_division_equations; lia).
  assert (56320 + n mod 1024 < 65536) as H2
      by (zify; Z.to_euclidean_division_equations; lia).
  unfold json.scan_unicode_escape.
  rewrite (decode_hex4 _ H1).
  assert ((55296 <=? 55296 + n / 1024) && (55296 + n / 1024 <=? 56319) = true) as ->.
  { apply andb_true_iff. rewrite !N.leb_le.
    zify; Z.to_euclidean_division_equations; lia. }
  rewrite u_escape_eq.
  change (str "\u") with [BACKSLASH; 117]. cbn [strip_prefix List.app].
  rewrite !N.eqb_refl.
  rewrite (decode_hex4 tail H2).
  assert ((56320 <=? 56320 + n mod 1024) && (56320 + n mod 1024 <=? 57343) = true) as ->.
  { apply andb_true_iff. rewrite !N.leb_le.
    zify; Z.to_euclidean_division_equations; lia. }
  rewrite (join_surrogates Hn). do 2 f_equal. unfold n. lia.
Qed.

Lemma escape_char_nonempty (c : N) : (0 < List.length (json.escape_char c))%nat.
Proof.
  unfold json.escape_char, json.u_escape.
  repeat match goal with
    | |- context [if ?b then _ else _] => destruct b
    end; cbn [List.length List.app str list_ascii_of_string map]; lia.
Qed.

Lemma scanstring_escape_char (c : N) (tail : pystr) (fuel : nat) :
  scalar_value c ->
  json.scanstring (S fuel) (json.escape_char c ++ tail)
  = json.scan_cons c (json.scanstring fuel tail).
Proof.
  intros Hc. unfold json.escape_char.
  destruct (N.eqb_spec c QUOTE) as [->|Hq]; [reflexivity|].
  destruct (N.eqb_spec c BACKSLASH) as [->|Hb]; [reflexivity|].
  destruct (N.eqb_spec c 10) as [->|H10]; [reflexivity|].
  destruct (N.eqb_spec c 13) as [->|H13]; [reflexivity|].
  destruct (N.eqb_spec c 9) as [->|H9]; [reflexivity|].
  destruct (N.eqb_spec c 12) as [->|H12]; [reflexivity|].
  destruct (N.eqb_spec c 8) as [->|H8]; [reflexivity|].
  destruct (N.leb_spec 32 c) as [H32|H32];
    [destruct (N.leb_spec c 126) as [H126|H126]|]; cbn [andb].
  - cbn [List.app json.scanstring].
    apply N.eqb_neq in Hq, Hb. rewrite Hq, Hb.
    assert ((c <? 32) = false) as -> by (apply N.ltb_ge; exact H32).
    reflexivity.
  - destruct (N.ltb_spec c 65536) as [Hlt|Hge].
    + rewrite u_escape_eq. cbn [List.app json.scanstring].
      change (BACKSLASH =? QUOTE) with false. rewrite !N.eqb_refl. cbv iota.
      now rewrite scan_unicode_escape_char.
    + assert (65536 <= c < 1114112) as Hr by (unfold scalar_value in Hc; lia).
      rewrite <- app_assoc. rewrite u_escape_eq at 1.
      cbn [List.app json.scanstring].
      change (BACKSLASH =? QUOTE) with false. rewrite !N.eqb_refl. cbv iota.
      now rewrite scan_unicode_escape_pair.
  - destruct (N.ltb_spec c 65536) as [Hlt|Hge]; [|lia].
    rewrite u_escape_eq. cbn [List.app json.scanstring].
    change (BACKSLASH =? QUOTE) with false. rewrite !N.eqb_refl. cbv iota.
    now rewrite scan_unicode_escape_char.
Qed.

Lemma scanstring_escaped (s : pystr) :
  forall rest fuel,
    Forall scalar_value s ->
    (List.length (flat_map json.escape_char s) < fuel)%nat ->
    json.scanstring fuel (flat_map json.escape_char s ++ QUOTE :: rest)
    = json.Scanned s rest.
Proof.
  induction s as [|c s IH]; intros rest fuel Hs Hf;
    (destruct fuel as [|fuel]; [simpl in Hf; lia|]).
  - reflexivity.
  - inversion_clear Hs as [|? ? Hc Hs'].
    cbn [flat_map] in *. rewrite <- app_assoc.
    rewrite scanstring_escape_char by assumption.
    rewrite length_app in Hf. pose proof (escape_char_nonempty c).
    rewrite IH by (auto; lia). reflexivity.
Qed.

Lemma scan_once_string (s rest : pystr) (fuel : nat) :
  Forall scalar_value s ->
  (List.length (json.encode_basestring_ascii s) <= fuel)%nat ->
  json.scan_once fuel (json.encode_basestring_ascii s ++ rest)
  = json.Scanned (PyStr s) rest.
Proof.
  intros Hs Hf. unfold json.encode_basestring_ascii in *.
  cbn [List.length] in Hf. rewrite length_app in Hf. cbn [List.length] in Hf.
  destruct fuel as [|fuel]; [lia|].
  cbn [List.app json.scan_once]. rewrite N.eqb_refl.
  rewrite <- app_assoc. cbn [List.app].
  rewrite scanstring_escaped by (auto; lia). reflexivity.
Qed.

Lemma dumps_items_cons (kv kv' : pystr * pyarg) (kw : list (pystr * pyarg)) :
  json.dumps_items (kv :: kv' :: kw)
  = (json.dumps_item kv >>= fun x =>
     json.dumps_items (kv' :: kw) >>= fun r =>
     Ok (x ++ str ", " ++ r)).
Proof. reflexivity. Qed.

(** ** Objects *)

Lemma skip_ws_head (c : N) (s : pystr) :
  json.is_ws c = false -> json.skip_ws (c :: s) = c :: s.
Proof. intros H. cbn [json.skip_ws]. now rewrite H. Qed.

Lemma JSONObject_next (fuel : nat) (s s2 s5 key : pystr) (v : pyobj)
    (pairs : list (pystr * pyobj)) :
  json.scanstring fuel s = json.Scanned key (58 :: s2) ->
  json.scan_once fuel (json.skip_ws s2)
    = json.Scanned v (44 :: 32 :: QUOTE :: s5) ->
  json.JSONObject (S fuel) s pairs
  = json.JSONObject fuel s5 (pairs ++ [(key, v)]).
Proof.
  intros H1 H2. cbn [json.JSONObject]. rewrite H1.
  rewrite (@skip_ws_head 58) by reflexivity. change (58 =? 58) with true.
  cbv iota. rewrite H2.
  rewrite (@skip_ws_head 44) by reflexivity.
  change (44 =? 125) with false. change (44 =? 44) with true. cbv iota.
  change (json.skip_ws (32 :: QUOTE :: s5)) with (json.skip_ws (QUOTE :: s5)).
  rewrite (@skip_ws_head QUOTE) by reflexivity.
  now rewrite N.eqb_refl.
Qed.

Lemma JSONObject_last (fuel : nat) (s s2 s4 key : pystr) (v : pyobj)
    (pairs : list (pystr * pyobj)) :
  json.scanstring fuel s = json.Scanned key (58 :: s2) ->
  json.scan_once fuel (json.skip_ws s2) = json.Scanned v (125 :: s4) ->
  json.JSONObject (S fuel) s pairs
  = json.Scanned (PyDict (dict_of_pairs (pairs ++ [(key, v)]))) s4.
Proof.
  intros H1 H2. cbn [json.JSONObject]. rewrite H1.
  rewrite (@skip_ws_head 58) by reflexivity. change (58 =? 58) with true.
  cbv iota. rewrite H2.
  rewrite (@skip_ws_head 125) by reflexivity.
  change (125 =? 125) with true. reflexivity.
Qed.

Lemma dumps_value_text (a : pyarg) :
  serializable a -> json.dumps_value a = Ok (value_text a).
Proof. destruct a as [|[|]| | |]; simpl; tauto. Qed.

Lemma dumps_item_text (kv : pystr * pyarg) :
  item_ok kv -> json.dumps_item kv = Ok (QUOTE :: item_body kv).
Proof.
  intros [_ H]. unfold json.dumps_item. rewrite dumps_value_text by assumption.
  cbn [bind]. unfold item_body, json.encode_basestring_ascii.
  cbn [List.app]. now rewrite <- app_assoc.
Qed.

Lemma dumps_items_text (kw : list (pystr * pyarg)) :
  forall kv, Forall item_ok (kv :: kw) ->
    json.dumps_items (kv :: kw) = Ok (QUOTE :: items_body kv kw).
Proof.
  induction kw as [|kv' kw IH]; intros kv H; inversion_clear H as [|? ? Hkv Hkw].
  - now apply dumps_item_text.
  - rewrite dumps_items_cons, dumps_item_text, IH by assumption.
    cbn [bind items_body List.app]. reflexivity.
Qed.

Lemma after_value_ends_number (rest : pystr) : after_value rest -> ends_number rest.
Proof.
  intros (r & [-> | ->]); simpl; repeat split; try lia; reflexivity.
Qed.

Lemma value_text_head (a : pyarg) :
  serializable a ->
  exists c tl, value_text a = c :: tl /\ json.is_ws c = false.
Proof.
  destruct a as [|[|]|z|s|m]; simpl; try tauto; intros _.
  1-3: eexists _, _; split; reflexivity.
  - destruct (int_repr_head z) as (c & tl & E & Hc). exists c, tl. split; [assumption|].
    unfold json.is_ws. destruct Hc as [Hc| ->]; [|reflexivity].
    apply is_digit_spec in Hc.
    repeat (apply orb_false_iff; split); apply N.eqb_neq; lia.
  - eexists _, _. split; reflexivity.
Qed.

Lemma scan_once_value_text (a : pyarg) (rest : pystr) (fuel : nat) :
  serializable a -> after_value rest ->
  (List.length (value_text a) <= fuel)%nat ->
  json.scan_once fuel (value_text a ++ rest) = json.Scanned (obj_of_arg a) rest.
Proof.
  intros Ha Hr Hf.
  destruct a as [|[|]|z|s|m]; cbn [value_text obj_of_arg] in *.
  1-3: destruct fuel; [simpl in Hf; lia|]; reflexivity.
  - destruct fuel.
    + destruct (int_repr_head z) as (c & tl & E & _). rewrite E in Hf. simpl in Hf. lia.
    + apply scan_once_int_repr. now apply after_value_ends_number.
  - now apply scan_once_string.
  - destruct Ha.
Qed.

Lemma JSONObject_item (kv : pystr * pyarg) (rest : pystr)
    (pairs : list (pystr * pyobj)) (fuel : nat) :
  item_ok kv -> after_value rest ->
  (List.length (item_body kv) <= fuel)%nat ->
  json.scanstring fuel (item_body kv ++ rest)
    = json.Scanned (fst kv) (58 :: 32 :: value_text (snd kv) ++ rest)
  /\ json.scan_once fuel (json.skip_ws (32 :: value_text (snd kv) ++ rest))
    = json.Scanned (obj_of_arg (snd kv)) rest.
Proof.
  intros [Hk Hv] Hr Hf. unfold item_body in *.
  rewrite length_app in Hf. cbn [List.length] in Hf. rewrite length_app in Hf.
  change (List.length (str ": ")) with 2%nat in Hf.
  split.
  - rewrite <- app_assoc. cbn [List.app].
    rewrite scanstring_escaped by (auto; lia).
    change (str ": ") with [58; 32]. now rewrite <- app_assoc.
  - change (json.skip_ws (32 :: value_text (snd kv) ++ rest))
      with (json.skip_ws (value_text (snd kv) ++ rest)).
    destruct (value_text_head _ Hv) as (c & tl & E & Hc).
    assert (json.skip_ws (value_text (snd kv) ++ rest) = value_text (snd kv) ++ rest) as ->
        by (rewrite E; cbn [List.app]; now apply skip_ws_head).
    apply scan_once_value_text; auto. lia.
Qed.

Lemma JSONObject_items (kw : list (pystr * pyarg)) :
  forall kv pairs rest fuel,
    Forall item_ok (kv :: kw) ->
    (List.length (items_body kv kw) < fuel)%nat ->
    json.JSONObject fuel (items_body kv kw ++ 125 :: rest) pairs
    = json.Scanned
        (PyDict (dict_of_pairs (pairs ++ map pair_of_item (kv :: kw)))) rest.
Proof.
  induction kw as [|kv' kw IH]; intros kv pairs rest fuel H Hf;
    inversion_clear H as [|? ? Hkv Hkw];
    (destruct fuel as [|fuel]; [lia|]); cbn [items_body] in *.
  - destruct (@JSONObject_item kv (125 :: rest) pairs fuel) as [H1 H2];
      [assumption|eexists; now right|lia|].
    now rewrite (@JSONObject_last _ _ _ _ _ _ pairs H1 H2).
  - rewrite length_app in Hf. cbn [List.length List.app str list_ascii_of_string map] in Hf.
    rewrite <- app_assoc. change (str ", ") with [44; 32].
    cbn [List.app].
    destruct (@JSONObject_item kv (44 :: 32 :: QUOTE :: items_body kv' kw ++ 125 :: rest)
                pairs fuel) as [H1 H2];
      [assumption|eexists; now left|lia|].
    rewrite (@JSONObject_next _ _ _ _ _ _ pairs H1 H2).
    rewrite IH by (auto; lia).
    cbn [map]. now rewrite <- app_assoc.
Qed.

Lemma dumps_eq (kw : list (pystr * pyarg)) :
  Forall item_ok kw -> json.dumps kw = Ok (dumps_text kw).
Proof.
  intros H. unfold json.dumps. destruct kw as [|kv kw]; [reflexivity|].
  now rewrite dumps_items_text.
Qed.

Lemma scan_once_dumps (kw : list (pystr * pyarg)) (rest : pystr) (fuel : nat) :
  Forall item_ok kw ->
  (List.length (dumps_text kw) <= fuel)%nat ->
  json.scan_once fuel (dumps_text kw ++ rest)
  = json.Scanned (PyDict (dict_of_pairs (map pair_of_item kw))) rest.
Proof.
  intros H Hf. destruct kw as [|kv kw]; cbn [dumps_text] in *.
  - destruct fuel; [simpl in Hf; lia|]. reflexivity.
  - cbn [List.length] in Hf. rewrite length_app in Hf. cbn [List.length] in Hf.
    destruct fuel as [|fuel]; [lia|].
    cbn [List.app json.scan_once]. change (123 =? QUOTE) with false.
    change (123 =? 123) with true. cbv iota.
    rewrite (@skip_ws_head QUOTE) by reflexivity. rewrite N.eqb_refl.
    rewrite <- app_assoc. cbn [List.app].
    now rewrite JSONObject_items by (auto; lia).
Qed.

(** ** [dict(pairs)] on distinct keys *)

Lemma dict_set_fresh (d : dict) (k : pystr) (v : pyobj) :
  ~ In k (map fst d) -> dict_set d k v = d ++ [(k, v)].
Proof.
  induction d as [|[k' v'] d IH]; intros H; cbn [dict_set List.app]; [reflexivity|].
  cbn [map fst In] in H.
  assert (pystr_eqb k' k = false) as -> by (apply pystr_eqb_neq; tauto).
  rewrite IH by tauto. reflexivity.
Qed.

Lemma fold_dict_set_nodup (l : list (pystr * pyobj)) :
  forall acc, NoDup (map fst (acc ++ l)) ->
    fold_left (fun d kv => dict_set d (fst kv) (snd kv)) l acc = acc ++ l.
Proof.
  induction l as [|[k v] l IH]; intros acc H; cbn [fold_left].
  - now rewrite app_nil_r.
  - cbn [fst snd]. rewrite dict_set_fresh.
    + rewrite IH; rewrite <- app_assoc; [reflexivity|exact H].
    + rewrite map_app in H. cbn [map fst] in H.
      apply NoDup_remove_2 in H. intros Hin. apply H.
      apply in_or_app. now left.
Qed.

Lemma dict_of_pairs_nodup (l : list (pystr * pyobj)) :
  NoDup (map fst l) -> dict_of_pairs l = l.
Proof. intros H. unfold dict_of_pairs. now rewrite fold_dict_set_nodup. Qed.

(** ** The success hook on well-formed arguments *)

Lemma plainb_spec (c : N) : plainb c = true <-> plain_char c.
Proof.
  unfold plainb, plain_char.
  rewrite !andb_true_iff, !negb_true_iff, !N.eqb_neq, N.leb_le. tauto.
Qed.

Lemma Forall_plain (s : pystr) : forallb plainb s = true -> Forall plain_char s.
Proof.
  intros H. apply Forall_forall. intros c Hc. apply plainb_spec.
  rewrite forallb_forall in H. auto.
Qed.

Lemma scan_once_plain_string (s rest : pystr) (fuel : nat) :
  Forall plain_char s -> (List.length s + 2 <= fuel)%nat ->
  json.scan_once fuel (json.skip_ws (QUOTE :: s ++ QUOTE :: rest))
  = json.Scanned (PyStr s) rest.
Proof.
  intros Hs Hf. rewrite (@skip_ws_head QUOTE) by reflexivity.
  destruct fuel as [|fuel]; [lia|].
  cbn [json.scan_once]. rewrite N.eqb_refl.
  rewrite scanstring_plain by (auto; lia). reflexivity.
Qed.

Lemma scan_once_skip_value_text (a : pyarg) (rest : pystr) (fuel : nat) :
  serializable a -> after_value rest ->
  (List.length (value_text a) <= fuel)%nat ->
  json.scan_once fuel (json.skip_ws (value_text a ++ rest))
  = json.Scanned (obj_of_arg a) rest.
Proof.
  intros Ha Hr Hf. destruct (value_text_head _ Ha) as (c & tl & E & Hc).
  assert (json.skip_ws (value_text a ++ rest) = value_text a ++ rest) as ->
      by (rewrite E; cbn [List.app]; now apply skip_ws_head).
  now apply scan_once_value_text.
Qed.

Lemma scanstring_key (key : string) (rest : pystr) (fuel : nat) :
  forallb plainb (str key) = true ->
  (List.length (str key) < fuel)%nat ->
  json.scanstring fuel (str key ++ QUOTE :: 58 :: rest)
  = json.Scanned (str key) (58 :: rest).
Proof. intros H Hf. apply scanstring_plain; auto using Forall_plain. Qed.

Lemma OK_TEMPLATE_filled (rt nm : pystr) (t len : Z) (other : pystr) :
  percent_format ForwardingListener.OK_TEMPLATE
    [AStr rt; AStr nm; AInt t; AInt len; AStr other]
  = Ok (success_text rt nm t len other).
Proof. vm_compute. reflexivity. Qed.

Lemma scan_once_success_text (rt nm : pystr) (t len : Z)
    (kw : list (pystr * pyarg)) (fuel : nat) :
  Forall plain_char rt -> Forall plain_char nm ->
  Forall item_ok kw -> NoDup (map fst kw) ->
  (List.length (success_text rt nm t len (dumps_text kw)) <= fuel)%nat ->
  json.scan_once fuel (success_text rt nm t len (dumps_text kw))
  = json.Scanned (success_payload rt nm t len kw) [].
Proof.
  intros Hrt Hnm Hkw Hnd Hf. unfold success_text in *.
  repeat (cbn [List.length] in Hf; rewrite length_app in Hf).
  cbn [List.length] in Hf.
  change (List.length (str "request_type")) with 12%nat in Hf.
  change (List.length (str "name")) with 4%nat in Hf.
  change (List.length (str "response_time")) with 13%nat in Hf.
  change (List.length (str "response_length")) with 15%nat in Hf.
  change (List.length (str "other")) with 5%nat in Hf.
  destruct fuel as [|fuel]; [lia|].
  cbn [json.scan_once]. change (123 =? QUOTE) with false.
  change (123 =? 123) with true. cbv iota.
  rewrite (@skip_ws_head QUOTE) by reflexivity. rewrite N.eqb_refl.
  destruct fuel as [|fuel]; [lia|].
  erewrite JSONObject_next;
    [|apply scanstring_key; [reflexivity|cbn; lia]
     |apply scan_once_plain_string; [assumption|lia]].
  destruct fuel as [|fuel]; [lia|].
  erewrite JSONObject_next;
    [|apply scanstring_key; [reflexivity|cbn; lia]
     |apply scan_once_plain_string; [assumption|lia]].
  destruct fuel as [|fuel]; [lia|].
  erewrite JSONObject_next;
    [|apply scanstring_key; [reflexivity|cbn; lia]
     |apply (@scan_once_skip_value_text (AInt t));
        [exact I|eexists; now left|cbn [value_text]; lia]].
  destruct fuel as [|fuel]; [lia|].
  erewrite JSONObject_next;
    [|apply scanstring_key; [reflexivity|cbn; lia]
     |apply (@scan_once_skip_value_text (AInt len));
        [exact I|eexists; now left|cbn [value_text]; lia]].
  destruct fuel as [|fuel]; [lia|].
  erewrite JSONObject_last;
    [|apply scanstring_key; [reflexivity|cbn; lia]
     |].
  2:{ assert (json.skip_ws (dumps_text kw ++ [125]) = dumps_text kw ++ [125]) as ->
        by (destruct kw; apply skip_ws_head; reflexivity).
      apply scan_once_dumps; [assumption|lia]. }
  rewrite (dict_of_pairs_nodup (map pair_of_item kw))
    by (rewrite map_map; exact Hnd).
  reflexivity.
Qed.

(** ** [loads] never runs out of fuel *)

Lemma skip_ws_length (s : pystr) :
  (List.length (json.skip_ws s) <= List.length s)%nat.
Proof.
  induction s as [|c s IH]; cbn [json.skip_ws List.length]; [lia|].
  destruct (json.is_ws c); cbn [List.length]; lia.
Qed.

Lemma strip_prefix_length (p : pystr) :
  forall s r, strip_prefix p s = Some r ->
    (List.length r + List.length p = List.length s)%nat.
Proof.
  induction p as [|x p IH]; intros [|y s] r; cbn [strip_prefix List.length];
    try discriminate.
  - intros [= <-]. reflexivity.
  - intros [= <-]. cbn [List.length]. lia.
  - destruct (x =? y); [|discriminate]. intros H. apply IH in H. lia.
Qed.

Lemma decode_uXXXX_length (s r : pystr) (n : N) :
  json.decode_uXXXX s = Some (n, r) ->
  (List.length r + 4 = List.length s)%nat.
Proof.
  destruct s as [|a [|b [|c [|d s]]]]; cbn [json.decode_uXXXX]; try discriminate.
  destruct (json.hex_value a), (json.hex_value b), (json.hex_value c),
    (json.hex_value d); try discriminate.
  intros [= _ <-]. cbn [List.length]. lia.
Qed.

Lemma scan_unicode_escape_length (s r : pystr) (n : N) :
  json.scan_unicode_escape s = Some (n, r) ->
  (List.length r < List.length s)%nat.
Proof.
  unfold json.scan_unicode_escape.
  destruct (json.decode_uXXXX s) as [[uni s1]|] eqn:E1; [|discriminate].
  apply decode_uXXXX_length in E1.
  destruct ((55296 <=? uni) && (uni <=? 56319)).
  - destruct (strip_prefix (str "\u") s1) as [s2|] eqn:E2.
    + apply strip_prefix_length in E2.
      destruct (json.decode_uXXXX s2) as [[uni2 s3]|] eqn:E3; [|discriminate].
      apply decode_uXXXX_length in E3.
      destruct ((56320 <=? uni2) && (uni2 <=? 57343)); intros [= _ <-]; lia.
    + intros [= _ <-]. lia.
  - intros [= _ <-]. lia.
Qed.

Lemma consumed_scan_cons (c : N) (r : json.scan pystr) (s s' : pystr) :
  consumed r s' -> (List.length s' <= List.length s)%nat ->
  consumed (json.scan_cons c r) s.
Proof. destruct r; cbn; auto. lia. Qed.

Lemma scanstring_consumed (fuel : nat) :
  forall s, (List.length s < fuel)%nat -> consumed (json.scanstring fuel s) s.
Proof.
  induction fuel as [|fuel IH]; intros s Hf; [lia|].
  destruct s as [|c s1]; cbn [json.scanstring]; [exact I|].
  cbn [List.length] in Hf.
  destruct (c =? QUOTE); [cbn; lia|].
  destruct (c =? BACKSLASH).
  - destruct s1 as [|esc s2]; [exact I|]. cbn [List.length] in Hf.
    destruct (esc =? 117).
    + destruct (json.scan_unicode_escape s2) as [[ch s3]|] eqn:E; [|exact I].
      apply scan_unicode_escape_length in E.
      apply consumed_scan_cons with s3; [apply IH; lia|cbn [List.length]; lia].
    + destruct (json.unescape esc); [|exact I].
      apply consumed_scan_cons with s2; [apply IH; lia|cbn [List.length]; lia].
  - destruct (c <? 32); [exact I|].
    apply consumed_scan_cons with s1; [apply IH; lia|cbn [List.length]; lia].
Qed.

Lemma take_digits_length (s : pystr) :
  (List.length (snd (json.take_digits s)) <= List.length s)%nat.
Proof.
  induction s as [|c s IH]; cbn [json.take_digits]; [cbn; lia|].
  destruct (json.is_digit c); [|cbn; lia].
  destruct (json.take_digits s) as [ds r]. cbn [snd List.length] in *. lia.
Qed.

Lemma match_frac_length (s : pystr) :
  (List.length (snd (json.match_frac s)) <= List.length s)%nat.
Proof.
  destruct s as [|c s]; cbn [json.match_frac]; [cbn; lia|].
  destruct (c =? 46); [|cbn; lia].
  pose proof (take_digits_length s) as H.
  destruct (json.take_digits s) as [[|d ds] r]; cbn [snd List.length] in *; lia.
Qed.

Lemma match_exp_length (s : pystr) :
  (List.length (snd (json.match_exp s)) <= List.length s)%nat.
Proof.
  destruct s as [|c s]; cbn [json.match_exp]; [cbn; lia|].
  destruct ((c =? 101) || (c =? 69)); [|cbn; lia].
  destruct s as [|d t].
  - cbn. lia.
  - destruct ((d =? 45) || (d =? 43)).
    + pose proof (take_digits_length t) as H.
      destruct (json.take_digits t) as [[|? ?] ?]; cbn [snd List.length] in *; lia.
    + pose proof (take_digits_length (d :: t)) as H.
      destruct (json.take_digits (d :: t)) as [[|? ?] ?];
        cbn [snd List.length] in *; lia.
Qed.

Lemma match_integer_length (s r ds : pystr) :
  json.match_integer s = Some (ds, r) -> (List.length r < List.length s)%nat.
Proof.
  destruct s as [|c s]; cbn [json.match_integer]; [discriminate|].
  destruct (c =? 48); [intros [= _ <-]; cbn; lia|].
  destruct (json.is_digit c); [|discriminate].
  pose proof (take_digits_length s) as H.
  destruct (json.take_digits s) as [ds' r']. intros [= _ <-].
  cbn [snd List.length] in *. lia.
Qed.

Lemma match_number_length (s r : pystr) (v : pyobj) :
  json.match_number s = Some (v, r) -> (List.length r < List.length s)%nat.
Proof.
  unfold json.match_number.
  assert (forall s0,
            (List.length s0 <= List.length s)%nat ->
            forall ds s1, json.match_integer s0 = Some (ds, s1) ->
            (List.length (snd (json.match_exp (snd (json.match_frac s1))))
             < List.length s)%nat) as H.
  { intros s0 Hs0 ds s1 E. apply match_integer_length in E.
    pose proof (match_frac_length s1).
    pose proof (match_exp_length (snd (json.match_frac s1))). lia. }
  destruct s as [|c s']; [discriminate|].
  destruct (c =? 45).
  - destruct (json.match_integer s') as [[ds s1]|] eqn:E; [|discriminate].
    specialize (H s' ltac:(cbn [List.length]; lia) ds s1 E).
    destruct (json.match_frac s1) as [frac s2]. cbn [snd] in H.
    destruct (json.match_exp s2) as [exp s3]. cbn [snd] in H.
    destruct frac, exp; intros [= _ <-]; exact H.
  - destruct (json.match_integer (c :: s')) as [[ds s1]|] eqn:E; [|discriminate].
    specialize (H (c :: s') ltac:(lia) ds s1 E).
    destruct (json.match_frac s1) as [frac s2]. cbn [snd] in H.
    destruct (json.match_exp s2) as [exp s3]. cbn [snd] in H.
    destruct frac, exp; intros [= _ <-]; exact H.
Qed.

Lemma literal_length (text : string) (v w : pyobj) (s r : pystr) :
  str text <> [] ->
  json.literal text v s = Some (w, r) -> (List.length r < List.length s)%nat.
Proof.
  intros Ht. unfold json.literal.
  destruct (strip_prefix (str text) s) as [rest|] eqn:E; [|discriminate].
  intros [= _ <-]. apply strip_prefix_length in E.
  destruct (str text); [congruence|]. cbn [List.length] in E. lia.
Qed.

Lemma scan_atom_length (s r : pystr) (v : pyobj) :
  json.scan_atom s = Some (v, r) -> (List.length r < List.length s)%nat.
Proof.
  unfold json.scan_atom, json.first_of.
  repeat match goal with
    | |- context [json.literal ?t ?w s] =>
        let E := fresh "E" in
        destruct (json.literal t w s) as [[? ?]|] eqn:E;
        [intros [= _ <-]; eapply literal_length; [|exact E]; discriminate|]
    | |- context [json.match_number s] =>
        let E := fresh "E" in
        destruct (json.match_number s) as [[? ?]|] eqn:E;
        [intros [= _ <-]; eapply match_number_length; exact E|]
    end.
  discriminate.
Qed.

Lemma skip_ws_cons_length (s s' : pystr) (c : N) :
  json.skip_ws s = c :: s' -> (List.length s' < List.length s)%nat.
Proof.
  intros E. pose proof (skip_ws_length s) as H. rewrite E in H.
  cbn [List.length] in H. lia.
Qed.

Lemma scan_consumed (fuel : nat) :
  (forall s, (2 * List.length s < fuel)%nat ->
     consumed (json.scan_once fuel s) s)
  /\ (forall s pairs, (2 * List.length s + 1 < fuel)%nat ->
        consumed (json.JSONObject fuel s pairs) s)
  /\ (forall s values, (2 * List.length s + 1 < fuel)%nat ->
        consumed (json.JSONArray fuel s values) s).
Proof.
  induction fuel as [|fuel (IHv & IHo & IHa)];
    [repeat split; intros; lia|].
  split; [|split].
  - intros s Hf. destruct s as [|c s1]; cbn [json.scan_once]; [exact I|].
    cbn [List.length] in Hf.
    destruct (c =? QUOTE).
    { pose proof (@scanstring_consumed fuel s1 ltac:(lia)) as H.
      destruct (json.scanstring fuel s1); cbn in *; auto; lia. }
    destruct (c =? 123).
    { destruct (json.skip_ws s1) as [|d s2] eqn:E; [exact I|].
      apply skip_ws_cons_length in E.
      destruct (d =? QUOTE).
      - pose proof (IHo s2 [] ltac:(lia)) as H.
        destruct (json.JSONObject fuel s2 []); cbn in *; auto; lia.
      - destruct (d =? 125); cbn; [lia|exact I]. }
    destruct (c =? 91).
    { destruct (json.skip_ws s1) as [|d s2] eqn:E; [exact I|].
      apply skip_ws_cons_length in E.
      destruct (d =? 93); [cbn; lia|].
      pose proof (IHa (d :: s2) [] ltac:(cbn [List.length]; lia)) as H.
      destruct (json.JSONArray fuel (d :: s2) []); cbn in *; auto; lia. }
    destruct (json.scan_atom (c :: s1)) as [[v rest]|] eqn:E; [|exact I].
    apply scan_atom_length in E. exact E.
  - intros s pairs Hf. cbn [json.JSONObject].
    pose proof (@scanstring_consumed fuel s ltac:(lia)) as Hk.
    destruct (json.scanstring fuel s) as [key s1| |]; cbn in Hk; auto.
    destruct (json.skip_ws s1) as [|c s2] eqn:E1; [exact I|].
    apply skip_ws_cons_length in E1.
    destruct (c =? 58); [|exact I].
    pose proof (skip_ws_length s2) as Hs2.
    pose proof (IHv (json.skip_ws s2) ltac:(lia)) as Hv.
    destruct (json.scan_once fuel (json.skip_ws s2)) as [value s3| |];
      cbn in Hv; auto.
    destruct (json.skip_ws s3) as [|d s4] eqn:E3; [exact I|].
    apply skip_ws_cons_length in E3.
    destruct (d =? 125); [cbn; lia|].
    destruct (d =? 44); [|exact I].
    destruct (json.skip_ws s4) as [|q s5] eqn:E4; [exact I|].
    apply skip_ws_cons_length in E4.
    destruct (q =? QUOTE); [|exact I].
    pose proof (IHo s5 (pairs ++ [(key, value)]) ltac:(lia)) as H.
    destruct (json.JSONObject fuel s5 (pairs ++ [(key, value)])); cbn in *; auto; lia.
  - intros s values Hf. cbn [json.JSONArray].
    pose proof (IHv s ltac:(lia)) as Hv.
    destruct (json.scan_once fuel s) as [value s1| |]; cbn in Hv; auto.
    destruct (json.skip_ws s1) as [|d s2] eqn:E1; [exact I|].
    apply skip_ws_cons_length in E1.
    destruct (d =? 93); [cbn; lia|].
    destruct (d =? 44); [|exact I].
    pose proof (skip_ws_length s2) as Hs2.
    pose proof (IHa (json.skip_ws s2) (values ++ [value]) ltac:(lia)) as H.
    destruct (json.JSONArray fuel (json.skip_ws s2) (values ++ [value]));
      cbn in *; auto; lia.
Qed.

(** [loads] returns a value or raises [JSONDecodeError]: the fuel it
    gives the scanner is never used up. *)
Lemma loads_total :
  forall s : pystr,
    (exists v, json.loads s = Ok v) \/ json.loads s = Raise JSONDecodeError.
Proof.
  intros s.
  assert ((exists v, match json.decode (2 * List.length s + 2) s with
                     | json.Scanned v _ => Ok v
                     | json.Invalid => Raise JSONDecodeError
                     | json.OutOfFuel => Raise (OtherException "RecursionError")
                     end = Ok v)
          \/ match json.decode (2 * List.length s + 2) s with
             | json.Scanned v _ => Ok v
             | json.Invalid => Raise JSONDecodeError
             | json.OutOfFuel => Raise (OtherException "RecursionError")
             end = Raise JSONDecodeError) as H.
  { unfold json.decode.
    pose proof (skip_ws_length s) as Hs.
    pose proof (proj1 (scan_consumed (2 * List.length s + 2)) (json.skip_ws s)
                  ltac:(lia)) as H.
    destruct (json.scan_once (2 * List.length s + 2) (json.skip_ws s))
      as [v rest| |]; cbn in H; [|now right|destruct H].
    destruct (json.skip_ws rest); [left; eauto|now right]. }
  unfold json.loads.
  destruct s as [|c s']; [exact H|].
  destruct (N.eq_dec c 65279) as [->|Hc]; [now right|].
  replace (match c :: s' with
           | 65279 :: _ => Raise JSONDecodeError
           | _ => match json.decode (2 * List.length (c :: s') + 2) (c :: s') with
                  | json.Scanned v _ => Ok v
                  | json.Invalid => Raise JSONDecodeError
                  | json.OutOfFuel => Raise (OtherException "RecursionError")
                  end
           end)
    with (match json.decode (2 * List.length (c :: s') + 2) (c :: s') with
          | json.Scanned v _ => Ok v
          | json.Invalid => Raise JSONDecodeError
          | json.OutOfFuel => Raise (OtherException "RecursionError")
          end); [exact H|].
  destruct c as [|p]; [reflexivity|].
  repeat (destruct p as [p|p|]; try reflexivity; try congruence).
Qed.

(** ** The failure hook *)

Lemma dumps_value_raises (a : pyarg) (e : exn) :
  json.dumps_value a = Raise e -> e = TypeError.
Proof. destruct a as [| [|] | | |]; simpl; congruence. Qed.

Lemma dumps_item_raises (kv : pystr * pyarg) (e : exn) :
  json.dumps_item kv = Raise e -> e = TypeError.
Proof.
  unfold json.dumps_item. destruct (json.dumps_value (snd kv)) eqn:E; simpl.
  - discriminate.
  - intros [= <-]. eapply dumps_value_raises; eauto.
Qed.

Lemma dumps_items_raises (kw : list (pystr * pyarg)) (e : exn) :
  json.dumps_items kw = Raise e -> e = TypeError.
Proof.
  induction kw as [|kv kw IH]; [discriminate|].
  destruct kw as [|kv' kw'].
  - apply dumps_item_raises.
  - rewrite dumps_items_cons.
    destruct (json.dumps_item kv) eqn:E; cbn [bind].
    + destruct (json.dumps_items (kv' :: kw')) eqn:E'; cbn [bind]; [discriminate|].
      intros [= <-]. now apply IH.
    + intros [= <-]. eapply dumps_item_raises; eauto.
Qed.

Lemma dumps_raises (kw : list (pystr * pyarg)) (e : exn) :
  json.dumps kw = Raise e -> e = TypeError.
Proof.
  unfold json.dumps. destruct (json.dumps_items kw) eqn:E; simpl; [discriminate|].
  intros [= <-]. eapply dumps_items_raises; eauto.
Qed.

(** The format of the failure hook has five conversions and is applied
    to six values. *)
Lemma ERR_TEMPLATE_six_arguments (a1 a2 a3 a4 a5 a6 : pyarg) :
  percent_format ForwardingListener.ERR_TEMPLATE [a1; a2; a3; a4; a5; a6]
  = Raise TypeError.
Proof. vm_compute. reflexivity. Qed.

(** C2 (the code departs from it): the failure hook never enqueues an
    event.  Whatever its arguments, [request_failure] raises [TypeError]:
    the interpolation is given one value more than [ERR_TEMPLATE] has
    conversions, so no payload is built and [add] is not reached. *)
Theorem request_failure_always_raises :
  forall (self : ForwardingListener.t)
         (request_type name response_time exception : pyarg)
         (kwargs : list (pystr * pyarg)),
    ForwardingListener.request_failure self request_type name response_time
      exception kwargs = Raised TypeError.
Proof.
  intros. unfold ForwardingListener.request_failure.
  destruct (json.dumps kwargs) as [other|e] eqn:E; cbn [bind].
  - now rewrite ERR_TEMPLATE_six_arguments.
  - now rewrite (dumps_raises _ E).
Qed.

(** ** The dispatch loop *)

Lemma for_backend_cons (b : BackendAdapter.t) (bs : list BackendAdapter.t)
    (d : message) (w : effects) :
  for_backend (b :: bs) d w
  = match invoke b d with
    | Ok printed =>
        for_backend bs d
          (mk_effects (calls w ++ [call_of b d]) (stdout w ++ printed))
    | Raise e => (mk_effects (calls w ++ [call_of b d]) (stdout w), Some e)
    end.
Proof. reflexivity. Qed.

(** One cycle in which no handler raises calls every backend once, in
    the order of the iteration. *)
Lemma for_backend_all_return (bs : list BackendAdapter.t) (d : message) :
  forall w, Forall (fun b => returns b d) bs ->
    exists printed,
      for_backend bs d w
      = (mk_effects (calls w ++ map (fun b => call_of b d) bs)
                    (stdout w ++ printed), None).
Proof.
  induction bs as [|b bs IH]; intros w H.
  - exists []. cbn. rewrite !app_nil_r. now destruct w.
  - inversion_clear H as [|? ? [printed Hb] Hbs].
    rewrite for_backend_cons, Hb.
    destruct (IH (mk_effects (calls w ++ [call_of b d]) (stdout w ++ printed)) Hbs)
      as [printed' ->].
    exists (printed ++ printed'). cbn [calls stdout map].
    now rewrite <- !app_assoc.
Qed.

(** One cycle in which a handler raises: the backends before it were
    called, it was called, the ones after it were not. *)
Lemma for_backend_raise (pre : list BackendAdapter.t) (a : BackendAdapter.t)
    (post : list BackendAdapter.t) (d : message) (e : exn) :
  forall w, Forall (fun b => returns b d) pre -> invoke a d = Raise e ->
    exists printed,
      for_backend (pre ++ a :: post) d w
      = (mk_effects (calls w ++ map (fun b => call_of b d) (pre ++ [a]))
                    (stdout w ++ printed), Some e).
Proof.
  induction pre as [|b pre IH]; intros w H Ha.
  - exists []. cbn [List.app]. rewrite for_backend_cons, Ha.
    cbn. now rewrite app_nil_r.
  - inversion_clear H as [|? ? [printed Hb] Hpre].
    cbn [List.app]. rewrite for_backend_cons, Hb.
    destruct (IH (mk_effects (calls w ++ [call_of b d]) (stdout w ++ printed)) Hpre Ha)
      as [printed' ->].
    exists (printed ++ printed'). cbn [calls stdout map List.app].
    now rewrite <- !app_assoc.
Qed.

Lemma filter_calls_in (a : BackendAdapter.t) (bs : list BackendAdapter.t)
    (d : message) :
  NoDup (oids bs) -> In a bs ->
  filter (fun c => Pos.eqb (receiver c) (BackendAdapter.oid a))
         (map (fun b => call_of b d) bs) = [call_of a d].
Proof.
  induction bs as [|b bs IH]; intros Hnd Hin; [destruct Hin|].
  cbn [oids map] in Hnd. inversion_clear Hnd as [|? ? Hb Hbs].
  cbn [map filter receiver call_of].
  destruct Hin as [->|Hin].
  - rewrite Pos.eqb_refl. f_equal.
    clear IH. induction bs as [|b' bs IH']; [reflexivity|].
    cbn [map filter receiver call_of].
    cbn [map In] in Hb.
    assert (Pos.eqb (BackendAdapter.oid b') (BackendAdapter.oid a) = false) as ->
        by (apply Pos.eqb_neq; tauto).
    apply IH'; [tauto|now inversion Hbs].
  - assert (Pos.eqb (BackendAdapter.oid b) (BackendAdapter.oid a) = false) as ->.
    { apply Pos.eqb_neq. intros E. apply Hb. rewrite E. now apply in_map. }
    now apply IH.
Qed.

Lemma filter_calls_not_in (a : BackendAdapter.t) (bs : list BackendAdapter.t)
    (d : message) :
  ~ In (BackendAdapter.oid a) (oids bs) ->
  filter (fun c => Pos.eqb (receiver c) (BackendAdapter.oid a))
         (map (fun b => call_of b d) bs) = [].
Proof.
  induction bs as [|b bs IH]; intros H; [reflexivity|].
  cbn [oids map In] in H. cbn [map filter receiver call_of].
  assert (Pos.eqb (BackendAdapter.oid b) (BackendAdapter.oid a) = false) as ->
      by (apply Pos.eqb_neq; tauto).
  apply IH. tauto.
Qed.

Lemma oid_injective (bs : list BackendAdapter.t) (a b : BackendAdapter.t) :
  NoDup (oids bs) -> In a bs -> In b bs ->
  BackendAdapter.oid a = BackendAdapter.oid b -> a = b.
Proof.
  induction bs as [|c bs IH]; intros Hnd Ha Hb E; [destruct Ha|].
  cbn [oids map] in Hnd. inversion_clear Hnd as [|? ? Hc Hbs].
  destruct Ha as [->|Ha], Hb as [->|Hb]; auto.
  - exfalso. apply Hc. rewrite E. now apply in_map.
  - exfalso. apply Hc. rewrite <- E. now apply in_map.
Qed.

(** The calls of one cycle that go to [a]: at most the one call the
    cycle owes it. *)
Lemma filter_calls_part (a : BackendAdapter.t) (pre post : list BackendAdapter.t)
    (d : message) :
  NoDup (oids (pre ++ post)) -> In a (pre ++ post) ->
  let got := filter (fun c => Pos.eqb (receiver c) (BackendAdapter.oid a))
                    (map (fun b => call_of b d) pre) in
  (In a pre -> got = [call_of a d]) /\ (~ In a pre -> got = []).
Proof.
  intros Hnd Hin got. subst got. split.
  - intros Hpre. apply filter_calls_in; [|assumption].
    unfold oids in *. rewrite map_app in Hnd. now apply NoDup_app_remove_r in Hnd.
  - intros Hpre. apply filter_calls_not_in. intros Ho.
    apply in_map_iff in Ho. destruct Ho as (b & E & Hb).
    apply Hpre. rewrite <- (oid_injective (pre ++ post) b a); auto.
    apply in_or_app. now left.
Qed.

Lemma for_backend_split (bs : list BackendAdapter.t) (d : message) :
  forall w, exists pre post,
    bs = pre ++ post
    /\ calls (fst (for_backend bs d w))
       = calls w ++ map (fun b => call_of b d) pre
    /\ (snd (for_backend bs d w) = None -> post = []).
Proof.
  induction bs as [|b bs IH]; intros w.
  - exists [], []. cbn. now rewrite app_nil_r.
  - rewrite for_backend_cons. destruct (invoke b d) as [printed|e].
    + destruct (IH (mk_effects (calls w ++ [call_of b d]) (stdout w ++ printed)))
        as (pre & post & E & Hc & Hnone).
      exists (b :: pre), post. rewrite Hc, E. cbn [calls map List.app].
      rewrite <- app_assoc. split; [reflexivity|]. split; [reflexivity|].
      rewrite <- E. exact Hnone.
    + exists [b], bs. cbn [fst snd calls map List.app].
      split; [reflexivity|]. split; [reflexivity|discriminate].
Qed.

Lemma loop_unset_cons (bs : list BackendAdapter.t) (in_get : bool)
    (d : message) (items : list message) (w : effects) :
  loop false bs in_get (d :: items) w
  = match for_backend bs d w with
    | (w', Some e) => (Escaped e, items, w')
    | (w', None) => loop false bs false items w'
    end.
Proof. cbn [loop]. now rewrite andb_false_r. Qed.

(** Whatever the handlers do, what [a] receives is an initial part of the
    queue, in the order of the queue, each event through the handler its
    type selects. *)
Lemma loop_deliveries (bs : list BackendAdapter.t) (a : BackendAdapter.t) :
  NoDup (oids bs) -> In a bs ->
  forall items in_get w,
    exists k, (k <= List.length items)%nat /\
      deliveries_to a (snd (loop false bs in_get items w))
      = deliveries_to a w ++ map (call_of a) (firstn k items).
Proof.
  intros Hnd Ha. induction items as [|d items IH]; intros in_get w.
  - exists 0%nat. cbn [loop]. rewrite andb_false_r. cbn. rewrite app_nil_r. auto.
  - rewrite loop_unset_cons.
    destruct (for_backend_split bs d w) as (pre & post & E & Hc & Hnone).
    destruct (for_backend bs d w) as [w' [e|]] eqn:Ef; cbn [fst snd] in *.
    + assert (exists k, (k <= 1)%nat /\
                filter (fun c => Pos.eqb (receiver c) (BackendAdapter.oid a))
                  (map (fun b => call_of b d) pre)
                = map (call_of a) (firstn k [d])) as (k & Hk & Hf).
      { rewrite E in Hnd, Ha.
        destruct (filter_calls_part a pre post d Hnd Ha) as [H1 H2].
        destruct (in_dec Pos.eq_dec (BackendAdapter.oid a) (oids pre)) as [Hin|Hin].
        - exists 1%nat. split; [lia|]. apply H1.
          apply in_map_iff in Hin. destruct Hin as (b & Eb & Hb).
          rewrite <- (oid_injective (pre ++ post) b a); auto.
          apply in_or_app. now left.
        - exists 0%nat. split; [lia|]. apply H2. intros Hp. apply Hin.
          now apply in_map. }
      exists k. split; [cbn [List.length]; lia|].
      unfold deliveries_to. rewrite Hc, filter_app, Hf.
      f_equal. f_equal. destruct k as [|[|k]]; try lia; reflexivity.
    + specialize (Hnone eq_refl). subst post. rewrite app_nil_r in E. subst pre.
      destruct (IH false w') as (k & Hk & Hd).
      exists (S k). split; [cbn [List.length]; lia|].
      rewrite Hd. unfold deliveries_to at 1. rewrite Hc, filter_app.
      rewrite (filter_calls_in a bs d Hnd Ha).
      cbn [firstn map]. unfold deliveries_to. now rewrite <- app_assoc.
Qed.

(** With the flag unset and no handler raising, the loop dispatches the
    whole queue, cycle after cycle, and then waits in [get]. *)
Lemma loop_all_return (bs : list BackendAdapter.t) :
  forall items in_get w, all_return bs items ->
    exists printed,
      loop false bs in_get items w
      = (WaitingInGet, [],
         mk_effects
           (calls w ++ flat_map (fun d => map (fun b => call_of b d) bs) items)
           (stdout w ++ printed)).
Proof.
  induction items as [|d items IH]; intros in_get w H.
  - exists []. cbn [loop]. rewrite andb_false_r. cbn. rewrite !app_nil_r.
    now destruct w.
  - rewrite loop_unset_cons.
    destruct (@for_backend_all_return bs d w) as [printed ->];
      [apply H; now left|].
    destruct (IH false
                (mk_effects (calls w ++ map (fun b => call_of b d) bs)
                            (stdout w ++ printed)))
      as [printed' ->]; [intros d' Hd'; apply H; now right|].
    exists (printed ++ printed'). cbn [calls stdout flat_map].
    now rewrite <- !app_assoc.
Qed.

Lemma deliveries_flat_map (bs : list BackendAdapter.t) (a : BackendAdapter.t)
    (items : list message) :
  NoDup (oids bs) -> In a bs ->
  filter (fun c => Pos.eqb (receiver c) (BackendAdapter.oid a))
         (flat_map (fun d => map (fun b => call_of b d) bs) items)
  = map (call_of a) items.
Proof.
  intros Hnd Ha. induction items as [|d items IH]; [reflexivity|].
  cbn [flat_map map]. rewrite filter_app, IH.
  now rewrite (filter_calls_in a bs d Hnd Ha).
Qed.

Lemma NoDup_app_apart {A : Type} (l1 l2 : list A) :
  NoDup (l1 ++ l2) -> forall x, In x l1 -> In x l2 -> False.
Proof.
  induction l1 as [|y l1 IH]; intros H x H1 H2; [destruct H1|].
  cbn [List.app] in H. inversion_clear H as [|? ? Hy Hl].
  destruct H1 as [->|H1]; [|eauto].
  apply Hy. apply in_or_app. now right.
Qed.

Lemma loop_takes_as_get (maxsize : Z) (d : message) (items : list message) :
  Queue.get (Queue.mk maxsize (d :: items))
  = Returns (d, Queue.mk maxsize items)
  /\ Queue.get (Queue.mk maxsize ([] : list message)) = Blocks.
Proof. split; reflexivity. Qed.

Lemma run_eq (self : ForwardingListener.t) :
  run self
  = match loop (quit self) (backends self) false
            (Queue.items (forwarder_queue self)) (mk_effects [] []) with
    | (e, items', w') =>
        (e, ForwardingListener.mk (backends self) (quit self)
              (Queue.mk (Queue.maxsize (forwarder_queue self)) items'), w')
    end.
Proof. reflexivity. Qed.

(** C1, as stated, fails: with a backend that raises and one that does
    not, in either order of iteration, the exception leaves [run]; when
    the raising backend comes first the other one is never called. *)
Lemma isolation_counterexample :
  let A := FailingAdapter 1 in
  let B := PrintAdapter.new 2 in
  run (listening [A; B] false [login_event])
  = (Escaped (OtherException "RuntimeError"), listening [A; B] false [],
     mk_effects [call_of A login_event] [])
  /\ deliveries_to B (snd (run (listening [A; B] false [login_event]))) = []
  /\ fst (fst (run (listening [B; A] false [login_event])))
     = Escaped (OtherException "RuntimeError").
Proof. vm_compute. repeat split. Qed.

Lemma loop_unset_in_get (bs : list BackendAdapter.t) (in_get : bool)
    (items : list message) (w : effects) :
  loop false bs in_get items w = loop false bs false items w.
Proof. destruct items; cbn [loop]; now rewrite !andb_false_r. Qed.

(** With the flag unset, the loop dispatches the events on which no
    handler raises, cycle after cycle, and goes on with what is behind
    them. *)
Lemma loop_returning_prefix (bs : list BackendAdapter.t) :
  forall before rest in_get w, all_return bs before ->
    exists printed,
      loop false bs in_get (before ++ rest) w
      = loop false bs false rest
          (mk_effects
             (calls w ++ flat_map (fun d => map (fun b => call_of b d) bs) before)
             (stdout w ++ printed)).
Proof.
  induction before as [|d before IH]; intros rest in_get w H.
  - exists []. cbn [List.app flat_map]. rewrite !app_nil_r.
    rewrite loop_unset_in_get. now destruct w.
  - cbn [List.app]. rewrite loop_unset_cons.
    destruct (@for_backend_all_return bs d w) as [printed ->];
      [apply H; now left|].
    destruct (IH rest false
                (mk_effects (calls w ++ map (fun b => call_of b d) bs)
                            (stdout w ++ printed)))
      as [printed' ->]; [intros d' Hd'; apply H; now right|].
    exists (printed ++ printed'). cbn [calls stdout flat_map].
    now rewrite <- !app_assoc.
Qed.

(** C1, amended: a handler that raises ends the cycle and the loop,
    wherever in the queue the event stands.  The events before it, on
    which no handler raises, went to every backend; for the event on
    which the handler raises, the backends iterated before that handler's
    backend, and it, were called once; the backends after it were not
    called for it; the exception leaves [run]; the events behind stay in
    the queue. *)
Theorem handler_exception_escapes :
  forall (pre : list BackendAdapter.t) (a : BackendAdapter.t)
         (post : list BackendAdapter.t) (before : list message) (d : message)
         (items : list message) (e : exn) (maxsize : Z),
    NoDup (oids (pre ++ a :: post)) ->
    all_return (pre ++ a :: post) before ->
    Forall (fun b => returns b d) pre ->
    invoke a d = Raise e ->
    exists w,
      run (ForwardingListener.mk (pre ++ a :: post) false
             (Queue.mk maxsize (before ++ d :: items)))
      = (Escaped e,
         ForwardingListener.mk (pre ++ a :: post) false (Queue.mk maxsize items),
         w)
      /\ (forall b, In b (pre ++ [a]) ->
            deliveries_to b w = map (call_of b) (before ++ [d]))
      /\ (forall b, In b post -> deliveries_to b w = map (call_of b) before).
Proof.
  intros pre a post before d items e maxsize Hnd Hret Hpre Ha.
  destruct (@loop_returning_prefix (pre ++ a :: post) before (d :: items) false
              (mk_effects [] []) Hret) as [printed1 Hl].
  cbn [calls stdout List.app] in Hl.
  destruct (@for_backend_raise pre a post d e
              (mk_effects
                 (flat_map (fun d => map (fun b => call_of b d) (pre ++ a :: post))
                    before) printed1) Hpre Ha)
    as [printed Hf].
  assert (NoDup (oids (pre ++ [a]))) as Hnd1.
  { unfold oids in *. rewrite map_app in *. cbn [map] in *.
    replace (map BackendAdapter.oid pre ++ BackendAdapter.oid a :: map BackendAdapter.oid post)
      with ((map BackendAdapter.oid pre ++ [BackendAdapter.oid a])
              ++ map BackendAdapter.oid post) in Hnd
      by (now rewrite <- app_assoc).
    now apply NoDup_app_remove_r in Hnd. }
  eexists. split; [|split].
  - rewrite run_eq. cbn [quit backends forwarder_queue Queue.items Queue.maxsize].
    rewrite Hl, loop_unset_cons, Hf. reflexivity.
  - intros b Hb. unfold deliveries_to. cbn [calls].
    rewrite filter_app, (map_app (call_of b) before [d]). f_equal.
    + apply deliveries_flat_map; [assumption|].
      apply in_app_or in Hb. apply in_or_app.
      destruct Hb as [Hb|[<-|[]]]; [now left|right; now left].
    + cbn [map]. now apply filter_calls_in.
  - intros b Hb. unfold deliveries_to. cbn [calls].
    rewrite filter_app.
    rewrite deliveries_flat_map;
      [|assumption|apply in_or_app; right; now right].
    replace (pre ++ a :: post) with ((pre ++ [a]) ++ post) in Hnd
      by (now rewrite <- app_assoc).
    rewrite (proj2 (filter_calls_part b (pre ++ [a]) post d Hnd
                      ltac:(apply in_or_app; now right))).
    + apply app_nil_r.
    + intros Hin. unfold oids in Hnd. rewrite map_app in Hnd.
      eapply (NoDup_app_apart _ _ Hnd); apply in_map; eassumption.
Qed.

Ltac distinct_oids :=
  cbn; repeat (constructor; [cbn; intuition discriminate|]); constructor.

Ltac all_returning :=
  repeat (constructor; [eexists; vm_compute; reflexivity|]); constructor.

Lemma handler_exception_escapes_witness :
  let bs :=
    [BackendAdapter.new 2] ++ PrintAdapter.new 1 :: [BackendAdapter.new 3] in
  let failure := mk_message (str "failure") failure_payload in
  exists w,
    run (ForwardingListener.mk bs false
           (Queue.mk 0 ([login_event] ++ failure :: [logout_event])))
    = (Escaped TypeError,
       ForwardingListener.mk bs false (Queue.mk 0 [logout_event]), w)
    /\ (forall b, In b ([BackendAdapter.new 2] ++ [PrintAdapter.new 1]) ->
          deliveries_to b w = map (call_of b) ([login_event] ++ [failure]))
    /\ (forall b, In b [BackendAdapter.new 3] ->
          deliveries_to b w = map (call_of b) [login_event]).
Proof.
  apply (@handler_exception_escapes [BackendAdapter.new 2] (PrintAdapter.new 1)
           [BackendAdapter.new 3] [login_event]
           (mk_message (str "failure") failure_payload) [logout_event]
           TypeError 0%Z).
  - distinct_oids.
  - intros d [<-|[]]. all_returning.
  - all_returning.
  - reflexivity.
Defined.

(** C7, as stated, fails: with a backend [A] that raises next to a
    backend [B] that does not, and two events queued, [B] does not
    receive both events, whichever of the two is iterated first. *)
Lemma delivery_order_counterexample :
  let A := FailingAdapter 1 in
  let B := PrintAdapter.new 2 in
  deliveries_to B
    (snd (run (listening [A; B] false [login_event; logout_event]))) = []
  /\ deliveries_to B
       (snd (run (listening [B; A] false [login_event; logout_event])))
     = [call_of B login_event].
Proof. vm_compute. split; reflexivity. Qed.

(** C7, amended: with [quit] unset, every registered backend receives an
    initial part of the queued events, each once, in the order of the
    queue, a ["failure"] event through [handle_failure] and any other
    through [handle_success]; when no handler raises on the queued
    events it is the whole queue, after which the loop waits in [get]. *)
Theorem delivery_in_admission_order :
  forall self : ForwardingListener.t,
    quit self = false ->
    NoDup (oids (backends self)) ->
    let items := Queue.items (forwarder_queue self) in
    (forall a, In a (backends self) ->
       exists k, (k <= List.length items)%nat /\
         deliveries_to a (snd (run self)) = map (call_of a) (firstn k items))
    /\ (all_return (backends self) items ->
        fst (fst (run self)) = WaitingInGet
        /\ Queue.items (forwarder_queue (snd (fst (run self)))) = []
        /\ forall a, In a (backends self) ->
             deliveries_to a (snd (run self)) = map (call_of a) items).
Proof.
  intros [bs q [ms items]] Hq Hnd.
  cbn [quit backends forwarder_queue Queue.items] in *.
  subst q. cbv zeta. split.
  - intros a Ha.
    destruct (@loop_deliveries bs a Hnd Ha items false (mk_effects [] []))
      as (k & Hk & Hd).
    exists k. split; [assumption|].
    rewrite run_eq. cbn [quit backends forwarder_queue Queue.items Queue.maxsize].
    destruct (loop false bs false items (mk_effects [] [])) as [[e items'] w'].
    exact Hd.
  - intros Hret.
    destruct (@loop_all_return bs items false (mk_effects [] []) Hret)
      as [printed Hl].
    rewrite run_eq. cbn [quit backends forwarder_queue Queue.items Queue.maxsize].
    rewrite Hl. cbn [fst snd forwarder_queue Queue.items].
    split; [reflexivity|]. split; [reflexivity|].
    intros a Ha. unfold deliveries_to. cbn [calls List.app].
    now apply deliveries_flat_map.
Qed.

Lemma delivery_in_admission_order_witness :
  let self :=
    listening [PrintAdapter.new 1; BackendAdapter.new 2] false
      [login_event; mk_message (str "failure") (payload logout_event)] in
  let items := Queue.items (forwarder_queue self) in
  (forall a, In a (backends self) ->
     exists k, (k <= List.length items)%nat /\
       deliveries_to a (snd (run self)) = map (call_of a) (firstn k items))
  /\ fst (fst (run self)) = WaitingInGet
  /\ Queue.items (forwarder_queue (snd (fst (run self)))) = []
  /\ forall a, In a (backends self) ->
       deliveries_to a (snd (run self)) = map (call_of a) items.
Proof.
  cbv zeta.
  destruct (@delivery_in_admission_order
              (listening [PrintAdapter.new 1; BackendAdapter.new 2] false
                 [login_event; mk_message (str "failure") (payload logout_event)])
              eq_refl ltac:(distinct_oids)) as [H1 H2].
  split; [exact H1|]. apply H2.
  intros d Hd. repeat (destruct Hd as [<-|Hd]; [all_returning|]). destruct Hd.
Defined.

(** C9, as stated, fails: with [quit] set and five events queued, [run]
    returns at its first test and dispatches none of them, they stay in
    the queue; and a loop that is waiting in [get] on the empty queue
    goes on waiting once [quit] is set. *)
Lemma shutdown_counterexample :
  run (listening [PrintAdapter.new 1] true five_events)
  = (Returned, listening [PrintAdapter.new 1] true five_events,
     mk_effects [] [])
  /\ run_from true (listening [PrintAdapter.new 1] true [])
       (mk_effects [] [])
     = (WaitingInGet, listening [PrintAdapter.new 1] true [],
        mk_effects [] []).
Proof. split; reflexivity. Qed.

(** C9, amended: there is no closed queue and no draining.  [quit] is
    read at the loop test only: seen set, [run] returns at once and
    leaves the queue as it is; inside [get] on the empty queue the loop
    waits whatever [quit] is, and an event that arrives then is still
    dispatched before [quit] is read.  With [quit] unset and no handler
    raising, the whole queue is dispatched, cycle after cycle, and the
    loop then waits in [get]: it does not stop by itself. *)
Theorem quit_read_at_loop_test_only :
  forall (bs : list BackendAdapter.t) (maxsize : Z) (items : list message)
         (w : effects),
    run_from false (ForwardingListener.mk bs true (Queue.mk maxsize items)) w
    = (Returned, ForwardingListener.mk bs true (Queue.mk maxsize items), w)
    /\ (forall quit,
          run_from true (ForwardingListener.mk bs quit (Queue.mk maxsize [])) w
          = (WaitingInGet,
             ForwardingListener.mk bs quit (Queue.mk maxsize []), w))
    /\ (forall d,
          Forall (fun b => returns b d) bs ->
          exists printed,
            run_from true (ForwardingListener.mk bs true (Queue.mk maxsize [d])) w
            = (Returned, ForwardingListener.mk bs true (Queue.mk maxsize []),
               mk_effects (calls w ++ map (fun b => call_of b d) bs)
                          (stdout w ++ printed)))
    /\ (all_return bs items ->
        exists printed,
          run_from false
            (ForwardingListener.mk bs false (Queue.mk maxsize items)) w
          = (WaitingInGet,
             ForwardingListener.mk bs false (Queue.mk maxsize []),
             mk_effects
               (calls w
                  ++ flat_map (fun d => map (fun b => call_of b d) bs) items)
               (stdout w ++ printed))).
Proof.
  intros bs maxsize items w. split; [|split; [|split]].
  - unfold run_from. cbn [quit backends forwarder_queue Queue.items Queue.maxsize].
    now destruct items.
  - intros q. unfold run_from.
    cbn [quit backends forwarder_queue Queue.items Queue.maxsize loop].
    reflexivity.
  - intros d Hd.
    destruct (@for_backend_all_return bs d w Hd) as [printed Hf].
    exists printed. unfold run_from.
    cbn [quit backends forwarder_queue Queue.items Queue.maxsize loop negb andb].
    rewrite Hf. reflexivity.
  - intros Hret.
    destruct (@loop_all_return bs items false w Hret) as [printed Hl].
    exists printed. unfold run_from.
    cbn [quit backends forwarder_queue Queue.items Queue.maxsize].
    now rewrite Hl.
Qed.

Lemma quit_read_at_loop_test_only_witness :
  exists printed,
    run_from false
      (ForwardingListener.mk [PrintAdapter.new 1] false (Queue.mk 0 five_events))
      (mk_effects [] [])
    = (WaitingInGet,
       ForwardingListener.mk [PrintAdapter.new 1] false (Queue.mk 0 []),
       mk_effects
         (calls (mk_effects [] [])
            ++ flat_map (fun d => map (fun b => call_of b d) [PrintAdapter.new 1])
                 five_events)
         (stdout (mk_effects [] []) ++ printed)).
Proof.
  apply (proj2 (proj2 (proj2
           (quit_read_at_loop_test_only [PrintAdapter.new 1] 0 five_events
              (mk_effects [] []))))).
  intros d Hd. repeat (destruct Hd as [<-|Hd]; [all_returning|]). destruct Hd.
Defined.

(** ** The registry *)

Lemma same_refl (a : BackendAdapter.t) : pyset.same a a = true.
Proof.
  unfold pyset.same, BackendAdapter.__eq__.
  now rewrite pystr_eqb_refl, Pos.eqb_refl.
Qed.

Lemma same_oid (a b : BackendAdapter.t) :
  pyset.same a b = true -> BackendAdapter.oid a = BackendAdapter.oid b.
Proof.
  unfold pyset.same, BackendAdapter.__eq__.
  rewrite andb_true_iff, Pos.eqb_eq. tauto.
Qed.

Lemma contains_false (s : list BackendAdapter.t) (a : BackendAdapter.t) :
  pyset.contains s a = false <-> forall b, In b s -> pyset.same a b = false.
Proof.
  unfold pyset.contains. induction s as [|c s IH]; cbn [existsb In].
  - split; [intros _ b []|reflexivity].
  - rewrite orb_false_iff, IH. split.
    + intros [Hc Hs] b [<-|Hb]; auto.
    + intros H. split; [apply H; now left|]. intros b Hb. apply H. now right.
Qed.

(** C3 (the code departs from it): two adapter objects with the same
    [id()] are both kept.  Membership in [self.backends] needs equal
    hashes and [__eq__]; the class defines [__hash__] from [id()] but no
    [__eq__], so two distinct objects never compare equal and the second
    [add_backend] adds a second entry for the same identity. *)
Theorem same_id_registered_twice :
  forall (self : ForwardingListener.t) (a b : BackendAdapter.t),
    BackendAdapter.id a = BackendAdapter.id b ->
    BackendAdapter.oid a <> BackendAdapter.oid b ->
    pyset.contains (backends self) a = false ->
    pyset.contains (backends self) b = false ->
    backends (add_backend (add_backend self a) b) = backends self ++ [a; b].
Proof.
  intros self a b Hid Hoid Ha Hb. unfold add_backend. cbn [backends].
  unfold pyset.add at 2. rewrite Ha.
  unfold pyset.add, pyset.contains. rewrite existsb_app.
  fold (pyset.contains (backends self) b). rewrite Hb. cbn [existsb orb].
  assert (pyset.same b a = false) as ->.
  { unfold pyset.same, BackendAdapter.__eq__. apply andb_false_iff. right.
    apply Pos.eqb_neq. congruence. }
  cbn [orb]. now rewrite <- app_assoc.
Qed.

Lemma same_id_registered_twice_witness :
  backends (add_backend (add_backend ForwardingListener.__init__
                           (PrintAdapter.new 1)) (PrintAdapter.new 2))
  = backends ForwardingListener.__init__
      ++ [PrintAdapter.new 1; PrintAdapter.new 2].
Proof.
  apply (@same_id_registered_twice ForwardingListener.__init__
           (PrintAdapter.new 1) (PrintAdapter.new 2)).
  - reflexivity.
  - cbn. discriminate.
  - reflexivity.
  - reflexivity.
Defined.

Lemma discard_spec (s : list BackendAdapter.t) (a : BackendAdapter.t) :
  NoDup (oids s) -> pyset.contains s a = true ->
  pyset.contains (pyset.discard s a) a = false
  /\ S (List.length (pyset.discard s a)) = List.length s
  /\ (forall b, pyset.same a b = false ->
        (In b (pyset.discard s a) <-> In b s))
  /\ NoDup (oids (pyset.discard s a)).
Proof.
  induction s as [|c s IH]; intros Hnd Hc; [discriminate|].
  cbn [oids map] in Hnd. inversion_clear Hnd as [|? ? Hco Hs].
  unfold pyset.contains in Hc. cbn [existsb pyset.discard] in *.
  destruct (pyset.same a c) eqn:Eac.
  - split; [|split; [|split]]; auto.
    + apply contains_false. intros b Hb.
      destruct (pyset.same a b) eqn:Eab; [|reflexivity].
      exfalso. apply Hco. apply same_oid in Eac, Eab.
      rewrite <- Eac, Eab. now apply in_map.
    + intros b Hb. cbn [In]. split; [tauto|]. intros [->|H]; [congruence|assumption].
  - cbn [orb] in Hc. destruct (IH Hs Hc) as (H1 & H2 & H3 & H4).
    split; [|split; [|split]].
    + unfold pyset.contains in *. cbn [existsb]. now rewrite Eac, H1.
    + cbn [List.length]. now rewrite H2.
    + intros b Hb. cbn [In]. now rewrite (H3 b Hb).
    + cbn [oids map]. constructor; [|assumption].
      intros Hin. apply Hco. apply in_map_iff in Hin.
      destruct Hin as (b & Eb & Hb). rewrite <- Eb. apply in_map.
      destruct (pyset.same a b) eqn:Eab.
      * exfalso. rewrite (proj1 (@contains_false _ _) H1 b Hb) in Eab. discriminate.
      * now apply (H3 b Eab).
Qed.

(** C6, as stated, fails: removing an adapter that is not registered
    raises [KeyError], on the empty registry and on one that holds
    another adapter. *)
Lemma remove_absent_counterexample :
  remove_backend ForwardingListener.__init__ (PrintAdapter.new 1)
  = Raise KeyError
  /\ remove_backend (add_backend ForwardingListener.__init__ (PrintAdapter.new 1))
       (BackendAdapter.new 2)
     = Raise KeyError.
Proof. split; reflexivity. Qed.

(** C6, amended: [remove_backend] of an adapter that is not in the
    registry raises [KeyError] (and so leaves the registry as it was);
    [remove_backend] of an adapter that is in the registry removes
    exactly that entry: the registry is one entry shorter, the adapter is
    no longer found in it, every other entry is still there, and the
    flag and the queue are as before. *)
Theorem remove_backend_spec :
  forall (self : ForwardingListener.t) (a : BackendAdapter.t),
    NoDup (oids (backends self)) ->
    (pyset.contains (backends self) a = false ->
     remove_backend self a = Raise KeyError)
    /\ (pyset.contains (backends self) a = true ->
        exists self',
          remove_backend self a = Ok self'
          /\ quit self' = quit self
          /\ forwarder_queue self' = forwarder_queue self
          /\ pyset.contains (backends self') a = false
          /\ S (List.length (backends self')) = List.length (backends self)
          /\ (forall b, pyset.same a b = false ->
                (In b (backends self') <-> In b (backends self)))).
Proof.
  intros self a Hnd. unfold remove_backend, pyset.remove. split; intros H; rewrite H.
  - reflexivity.
  - cbn [bind]. eexists. split; [reflexivity|].
    cbn [quit forwarder_queue backends].
    destruct (@discard_spec _ _ Hnd H) as (H1 & H2 & H3 & _). auto.
Qed.

Lemma remove_backend_spec_witness :
  (remove_backend (add_backend ForwardingListener.__init__ (PrintAdapter.new 1))
     (BackendAdapter.new 2) = Raise KeyError)
  /\ exists self',
       remove_backend
         (add_backend (add_backend ForwardingListener.__init__
                         (PrintAdapter.new 1)) (BackendAdapter.new 2))
         (PrintAdapter.new 1) = Ok self'
       /\ backends self' = [BackendAdapter.new 2].
Proof.
  split.
  - apply (proj1 (@remove_backend_spec
                    (add_backend ForwardingListener.__init__ (PrintAdapter.new 1))
                    (BackendAdapter.new 2) ltac:(distinct_oids))).
    reflexivity.
  - destruct (proj2 (@remove_backend_spec
                       (add_backend (add_backend ForwardingListener.__init__
                                       (PrintAdapter.new 1)) (BackendAdapter.new 2))
                       (PrintAdapter.new 1) ltac:(distinct_oids)) eq_refl)
      as (self' & H & _).
    exists self'. split; [exact H|].
    vm_compute in H. now injection H as <-.
Defined.

(** ** The queue *)

Lemma add_unbounded (self : ForwardingListener.t) (d : message) :
  unbounded self ->
  add self d
  = Done (ForwardingListener.mk (backends self) (quit self)
            (Queue.mk (Queue.maxsize (forwarder_queue self))
               (Queue.items (forwarder_queue self) ++ [d]))).
Proof.
  unfold unbounded, add, Queue.put, Queue.full. intros H.
  assert ((0 <? Queue.maxsize (forwarder_queue self))%Z = false) as ->
      by (apply Z.ltb_ge; exact H).
  reflexivity.
Qed.

Lemma add_all_unbounded (ds : list message) :
  forall self, unbounded self ->
    add_all self ds
    = Done (ForwardingListener.mk (backends self) (quit self)
              (Queue.mk (Queue.maxsize (forwarder_queue self))
                 (Queue.items (forwarder_queue self) ++ ds))).
Proof.
  induction ds as [|d ds IH]; intros self H; cbn [add_all].
  - rewrite app_nil_r. now destruct self as [bs q [ms items]].
  - rewrite add_unbounded by assumption. rewrite IH by exact H.
    cbn [backends quit forwarder_queue Queue.items Queue.maxsize].
    now rewrite <- app_assoc.
Qed.

(** C4, as stated, fails: the queue is created without a bound, and for
    every capacity [C] one wants to name, [C + 1] events put one after the
    other are all admitted and all held. *)
Lemma bounded_queue_counterexample :
  Queue.maxsize (forwarder_queue ForwardingListener.__init__) = 0%Z
  /\ forall C : nat,
       add_all ForwardingListener.__init__ (repeat login_event (S C))
       = Done (listening [] false (repeat login_event (S C))).
Proof.
  split; [reflexivity|]. intros C.
  now rewrite add_all_unbounded by (unfold unbounded; cbn; lia).
Qed.

(** C4, amended: the queue of a listener has no bound ([Queue()],
    [maxsize] 0, which no method changes).  [add] admits every event: it
    returns, never waits and never raises, and the event is the new last
    element of the queue; nothing is dropped. *)
Theorem add_accepts_every_event :
  unbounded ForwardingListener.__init__
  /\ forall (self : ForwardingListener.t) (d : message),
       unbounded self ->
       exists self',
         add self d = Done self'
         /\ unbounded self'
         /\ Queue.items (forwarder_queue self')
            = Queue.items (forwarder_queue self) ++ [d]
         /\ backends self' = backends self
         /\ quit self' = quit self.
Proof.
  split; [unfold unbounded; cbn; lia|]. intros self d H.
  eexists. split; [now apply add_unbounded|].
  split; [exact H|]. repeat split.
Qed.

Lemma add_accepts_every_event_witness :
  exists self',
    add (listening [] false five_events) logout_event = Done self'
    /\ unbounded self'
    /\ Queue.items (forwarder_queue self')
       = Queue.items (forwarder_queue (listening [] false five_events))
           ++ [logout_event]
    /\ backends self' = backends (listening [] false five_events)
    /\ quit self' = quit (listening [] false five_events).
Proof.
  apply (proj2 add_accepts_every_event (listening [] false five_events)
           logout_event).
  unfold unbounded. cbn. lia.
Defined.

(** ** The console adapter *)

(** C5 (the code departs from it): [PrintAdapter.handle_failure] passes
    the payload to [request_success], which requires [response_length];
    on a payload without it, as a failure payload is, the call raises
    [TypeError] and nothing is printed. *)
Theorem handle_failure_requires_response_length :
  forall d : dict,
    dict_get d (str "response_length") = None ->
    PrintAdapter.handle_failure (PyDict d) = Raise TypeError.
Proof.
  intros d H. unfold PrintAdapter.handle_failure, PrintAdapter.call_request_success.
  rewrite H.
  destruct (dict_get d (str "self")); [reflexivity|].
  destruct (dict_get d (str "request_type")); [|reflexivity].
  destruct (dict_get d (str "name")); [|reflexivity].
  destruct (dict_get d (str "response_time")); reflexivity.
Qed.

Lemma handle_failure_requires_response_length_witness :
  BackendAdapter.handle_failure (PrintAdapter.new 1) failure_payload
  = Raise TypeError.
Proof.
  apply (@handle_failure_requires_response_length
           [(str "request_type", PyStr (str "POST"));
            (str "name", PyStr (str "/login"));
            (str "response_time", PyInt 120);
            (str "exception", PyStr (str "boom"));
            (str "other", PyDict [])]).
  reflexivity.
Defined.

(** A success payload, as the success hook builds it, is printed. *)
Lemma handle_success_prints (rt nm : pystr) (t len : Z)
    (kw : list (pystr * pyarg)) :
  PrintAdapter.handle_success (success_payload rt nm t len kw)
  = Ok [[PyStr rt; PyStr nm; PyInt t; PyInt len; PyBool true; PyNone]].
Proof. reflexivity. Qed.

(** ** The Elasticsearch adapter *)

(** C8, as stated, fails: without verification the constructor can
    raise all the same, and with verification it can raise something
    that is not [AdapterError].  The client is made first, outside the
    [try]: a value for [elastic_hosts] that the client class refuses
    makes the constructor raise what the client class raised. *)
Lemma unverified_construction_counterexample :
  ElasticSearchAdapter.__init__ 1 (client_class reachable) (PyInt 9200)
    ElasticSearchAdapter.default_index_name false = Raise TypeError
  /\ ElasticSearchAdapter.__init__ 1 (client_class reachable) (PyInt 9200)
       ElasticSearchAdapter.default_index_name true = Raise TypeError.
Proof. split; reflexivity. Qed.

(** C8, amended: the constructor makes the client first; what that
    raises leaves the constructor as it is, with or without
    verification.  Once the client is made, the constructor raises
    [AdapterError] exactly when verification was asked for and the probe
    raises, and it raises nothing else; without verification it returns
    an adapter, and the same one whatever the probe would answer: the
    probe plays no part.  An adapter is returned exactly when the client
    was made and the probe, if asked for, answered: a construction that
    fails returns none. *)
Theorem ElasticSearchAdapter_init_spec :
  forall (o : positive) (connect : pyobj -> result Elasticsearch)
         (elastic_hosts : pyobj) (index_name : pystr)
         (verify_connection : bool),
    (forall e,
       connect elastic_hosts = Raise e ->
       ElasticSearchAdapter.__init__ o connect elastic_hosts index_name
         verify_connection = Raise e)
    /\ (forall es,
          connect elastic_hosts = Ok es ->
          (ElasticSearchAdapter.__init__ o connect elastic_hosts index_name
             verify_connection = Raise AdapterError
           <-> verify_connection = true /\ probe_fails es)
          /\ (forall e,
                ElasticSearchAdapter.__init__ o connect elastic_hosts index_name
                  verify_connection = Raise e -> e = AdapterError)
          /\ (exists adapter,
                ElasticSearchAdapter.__init__ o connect elastic_hosts
                  index_name false = Ok adapter
                /\ forall health,
                     ElasticSearchAdapter.__init__ o
                       (fun _ => Ok (mk_client health (index es)))
                       elastic_hosts index_name false = Ok adapter))
    /\ ((exists adapter,
           ElasticSearchAdapter.__init__ o connect elastic_hosts index_name
             verify_connection = Ok adapter)
        <-> exists es,
              connect elastic_hosts = Ok es
              /\ (verify_connection = false
                  \/ exists health, cluster_health es = Ok health)).
Proof.
  intros o connect hosts index_name verify.
  unfold ElasticSearchAdapter.__init__, probe_fails. split; [|split].
  - intros e ->. reflexivity.
  - intros es ->. cbn [bind]. split; [|split].
    + destruct verify.
      * destruct (cluster_health es) as [v|e].
        -- split; [discriminate|]. intros [_ [e He]]. discriminate.
        -- split; [intros _; eauto|]. intros _. now destruct e.
      * split; [discriminate|]. intros [H _]. discriminate.
    + intros e. destruct verify; [|discriminate].
      destruct (cluster_health es) as [v|e']; [discriminate|].
      destruct e'; congruence.
    + eexists. split; [reflexivity|]. intros health. reflexivity.
  - destruct (connect hosts) as [es|e]; cbn [bind].
    + destruct verify.
      * destruct (cluster_health es) as [v|e] eqn:E.
        -- split; [intros _|intros _; eauto].
           exists es. split; [reflexivity|right; eauto].
        -- split; [intros [adapter H]; destruct e; discriminate|].
           intros (es' & [= <-] & [H|[v H]]); [discriminate|congruence].
      * split; [intros _|intros _; eauto].
        exists es. split; [reflexivity|now left].
    + split; [intros [adapter H]; discriminate|].
      intros (es & H & _). discriminate.
Qed.

Lemma ElasticSearchAdapter_init_spec_witness :
  ElasticSearchAdapter.__init__ 1 (client_class unreachable)
    ElasticSearchAdapter.default_hosts
    ElasticSearchAdapter.default_index_name true = Raise AdapterError
  /\ (exists adapter,
        ElasticSearchAdapter.__init__ 1 (client_class unreachable)
          ElasticSearchAdapter.default_hosts
          ElasticSearchAdapter.default_index_name false = Ok adapter)
  /\ ElasticSearchAdapter.__init__ 1 (client_class unreachable) (PyInt 9200)
       ElasticSearchAdapter.default_index_name true = Raise TypeError.
Proof.
  destruct (ElasticSearchAdapter_init_spec 1 (client_class unreachable)
              ElasticSearchAdapter.default_hosts
              ElasticSearchAdapter.default_index_name true) as (_ & H & _).
  destruct (H unreachable eq_refl) as (H1 & _ & _).
  destruct (ElasticSearchAdapter_init_spec 1 (client_class unreachable)
              ElasticSearchAdapter.default_hosts
              ElasticSearchAdapter.default_index_name false) as (_ & H' & _).
  destruct (H' unreachable eq_refl) as (_ & _ & adapter & H3 & _).
  split; [|split].
  - apply H1. split; [reflexivity|]. exists ConnectionError. reflexivity.
  - exists adapter. exact H3.
  - apply (proj1 (ElasticSearchAdapter_init_spec 1 (client_class unreachable)
                    (PyInt 9200) ElasticSearchAdapter.default_index_name
                    true)).
    reflexivity.
Defined.

(** ** The success hook *)

(** C10, as stated, fails: a name that holds a backslash and a double
    quote can pass.  The name [a\"b] is accepted and an event is put on
    the queue, with the name [a"b] in its payload; the name
    [a", "self":"b] is accepted too, and adds a key to the payload. *)
Lemma quote_accepted_counterexample :
  In QUOTE (dq "a\'b") /\ In BACKSLASH (dq "a\'b")
  /\ request_success ForwardingListener.__init__
       (AStr (str "GET")) (AStr (dq "a\'b")) (AInt 120) (AInt 512) []
     = Done (listening [] false
               [mk_message (str "success")
                  (success_payload (str "GET") (dq "a'b") 120 512 [])])
  /\ request_success ForwardingListener.__init__
       (AStr (str "GET")) (AStr (dq "a', 'self':'b")) (AInt 120) (AInt 512) []
     = Done (listening [] false
               [mk_message (str "success")
                  (PyDict [(str "request_type", PyStr (str "GET"));
                           (str "name", PyStr (str "a"));
                           (str "self", PyStr (str "b"));
                           (str "response_time", PyInt 120);
                           (str "response_length", PyInt 512);
                           (str "other", PyDict [])])]).
Proof. vm_compute. intuition. Qed.

Lemma loads_success_text (rt nm : pystr) (t len : Z) (kw : list (pystr * pyarg)) :
  Forall plain_char rt -> Forall plain_char nm -> kwargs_ok kw ->
  json.loads (success_text rt nm t len (dumps_text kw))
  = Ok (success_payload rt nm t len kw).
Proof.
  intros Hrt Hnm [Hnd Hkw].
  pose proof (@scan_once_success_text rt nm t len kw
                (2 * List.length (success_text rt nm t len (dumps_text kw)) + 2)
                Hrt Hnm Hkw Hnd ltac:(lia)) as H.
  unfold json.loads, json.decode.
  change (success_text rt nm t len (dumps_text kw))
    with (123 :: tl (success_text rt nm t len (dumps_text kw))) in *.
  rewrite (@skip_ws_head 123) by reflexivity.
  rewrite H. reflexivity.
Qed.

(** C10, amended: the success hook is partial.  It raises a JSON parsing
    error, and puts no event on the queue, for some request types or
    names that hold a double quote or a backslash, such as a name that is
    one double quote or one backslash; not for all of them (a name in
    which they make up valid JSON text is accepted, and may be changed).
    For a request type and a name free of double quotes, backslashes and
    control characters, integer time and length, and keyword arguments
    that are [None], booleans, integers or strings of Unicode scalar
    values, it builds the payload with the values given and hands the
    event to [add]; this for a call that Python accepts (no keyword
    bears the name of a parameter) and for integers of at most 4300
    digits, which every interpreter writes and reads. *)
Theorem request_success_partial :
  (forall self,
     request_success self (AStr (str "GET")) (AStr [QUOTE]) (AInt 120)
       (AInt 512) [] = Raised JSONDecodeError)
  /\ (forall self,
        request_success self (AStr (str "GET")) (AStr [BACKSLASH]) (AInt 120)
          (AInt 512) [] = Raised JSONDecodeError)
  /\ (forall self rt nm t len kw,
        Forall plain_char rt -> Forall plain_char nm -> kwargs_ok kw ->
        keyword_clash kw = false ->
        few_digits t = true -> few_digits len = true ->
        kwargs_few_digits kw = true ->
        request_success self (AStr rt) (AStr nm) (AInt t) (AInt len) kw
        = add self (mk_message (str "success")
                      (success_payload rt nm t len kw))).
Proof.
  split; [|split].
  - intros self. reflexivity.
  - intros self. reflexivity.
  - intros self rt nm t len kw Hrt Hnm Hkw _ _ _ _. unfold request_success.
    rewrite (dumps_eq (proj2 Hkw)). cbn [bind].
    rewrite OK_TEMPLATE_filled. cbn [bind].
    now rewrite loads_success_text.
Qed.

Lemma request_success_partial_witness :
  request_success ForwardingListener.__init__ (AStr (str "POST"))
    (AStr (str "/login")) (AInt 120) (AInt 512)
    [(str "user", AStr (dq "It's 'me'")); (str "retries", AInt 2)]
  = Done (listening [] false
            [mk_message (str "success")
               (success_payload (str "POST") (str "/login") 120 512
                  [(str "user", AStr (dq "It's 'me'")); (str "retries", AInt 2)])]).
Proof.
  rewrite (proj2 (proj2 request_success_partial) ForwardingListener.__init__
             (str "POST") (str "/login") 120%Z 512%Z
             [(str "user", AStr (dq "It's 'me'")); (str "retries", AInt 2)]).
  - reflexivity.
  - apply Forall_plain. reflexivity.
  - apply Forall_plain. reflexivity.
  - split.
    + cbn. repeat (constructor; [cbn; intuition discriminate|]). constructor.
    + repeat constructor; cbn; try (left; vm_compute; reflexivity).
  - reflexivity.
  - reflexivity.
  - reflexivity.
  - reflexivity.
Defined.

(** ** Registering an adapter again *)

(** X2: registering the same adapter object again changes nothing. *)
Theorem add_backend_same_object :
  forall (self : ForwardingListener.t) (a : BackendAdapter.t),
    add_backend (add_backend self a) a = add_backend self a.
Proof.
  intros [bs q fq] a. unfold add_backend. cbn [backends quit forwarder_queue].
  f_equal. unfold pyset.add at 1.
  assert (pyset.contains (pyset.add bs a) a = true) as ->; [|reflexivity].
  unfold pyset.add. destruct (pyset.contains bs a) eqn:E; [exact E|].
  unfold pyset.contains. rewrite existsb_app. cbn [existsb].
  now rewrite same_refl, orb_true_r.
Qed.

(** The registry holds no adapter object twice, as long as an object's
    identity stands for the object. *)
Lemma add_backend_keeps_distinct (self : ForwardingListener.t)
    (a : BackendAdapter.t) :
  NoDup (oids (backends self)) ->
  (forall b, In b (backends self) ->
     BackendAdapter.oid b = BackendAdapter.oid a -> b = a) ->
  NoDup (oids (backends (add_backend self a))).
Proof.
  intros Hnd Hobj. unfold add_backend, pyset.add. cbn [backends].
  destruct (pyset.contains (backends self) a) eqn:E; [exact Hnd|].
  unfold oids. rewrite map_app. cbn [map].
  apply NoDup_app; [exact Hnd|repeat constructor; intros []|].
  intros o Ho [<-|[]]. apply in_map_iff in Ho. destruct Ho as (b & Eb & Hb).
  pose proof (Hobj b Hb Eb) as ->.
  pose proof (proj1 (@contains_false _ _) E a Hb) as H.
  rewrite same_refl in H. discriminate.
Qed.

(** ** More on the registry *)

Lemma discard_app_last (s : list BackendAdapter.t) (a : BackendAdapter.t) :
  pyset.contains s a = false -> pyset.discard (s ++ [a]) a = s.
Proof.
  induction s as [|y s IH]; intros H.
  - cbn [List.app pyset.discard]. now rewrite same_refl.
  - unfold pyset.contains in H. cbn [existsb] in H.
    apply orb_false_iff in H. destruct H as [Hy Hs].
    cbn [List.app pyset.discard]. rewrite Hy. f_equal. now apply IH.
Qed.

(** X3: registering an adapter object that was not registered and then
    removing it gives the listener back as it was. *)
Theorem remove_after_add :
  forall (self : ForwardingListener.t) (a : BackendAdapter.t),
    pyset.contains (backends self) a = false ->
    remove_backend (add_backend self a) a = Ok self.
Proof.
  intros [bs q fq] a H. cbn [backends] in H.
  unfold remove_backend, add_backend, pyset.remove, pyset.add.
  cbn [backends quit forwarder_queue]. rewrite H.
  assert (pyset.contains (bs ++ [a]) a = true) as ->.
  { unfold pyset.contains. rewrite existsb_app. cbn [existsb].
    now rewrite same_refl, orb_true_r. }
  cbn [bind]. now rewrite discard_app_last.
Qed.

Lemma remove_after_add_witness :
  remove_backend
    (add_backend (listening [PrintAdapter.new 1] false five_events)
       (BackendAdapter.new 2))
    (BackendAdapter.new 2)
  = Ok (listening [PrintAdapter.new 1] false five_events).
Proof.
  apply (@remove_after_add (listening [PrintAdapter.new 1] false five_events)
           (BackendAdapter.new 2)).
  reflexivity.
Defined.

(** ** What the loop takes from the queue *)

Lemma loop_consumes (quit : bool) (bs : list BackendAdapter.t) :
  forall items in_get w,
    exists k,
      (k <= List.length items)%nat
      /\ snd (fst (loop quit bs in_get items w)) = skipn k items
      /\ (forall c, In c (calls (snd (loop quit bs in_get items w))) ->
            In c (calls w)
            \/ exists b d, In b bs /\ In d (firstn k items) /\ c = call_of b d)
      /\ (fst (fst (loop quit bs in_get items w)) = WaitingInGet ->
          k = List.length items)
      /\ (fst (fst (loop quit bs in_get items w)) = Returned -> quit = true).
Proof.
  induction items as [|d items IH]; intros in_get w.
  - exists 0%nat. cbn [loop]. destruct (negb in_get && quit) eqn:E;
      cbn [fst snd skipn List.length]; repeat split; auto; try discriminate.
    intros _. apply andb_true_iff in E. tauto.
  - cbn [loop]. destruct (negb in_get && quit) eqn:E.
    + exists 0%nat. cbn [fst snd skipn List.length]. repeat split; auto; try lia.
      * discriminate.
      * intros _. apply andb_true_iff in E. tauto.
    + destruct (for_backend_split bs d w) as (pre & post & Ebs & Hc & Hnone).
      destruct (for_backend bs d w) as [w' [e|]] eqn:Ef; cbn [fst snd] in *.
      * exists 1%nat. cbn [fst snd skipn firstn List.length].
        split; [lia|]. split; [reflexivity|]. split; [|split; discriminate].
        intros c Hin. rewrite Hc in Hin. apply in_app_or in Hin.
        destruct Hin as [Hin|Hin]; [now left|right].
        apply in_map_iff in Hin. destruct Hin as (b & <- & Hb).
        exists b, d. split; [rewrite Ebs; apply in_or_app; now left|].
        split; [now left|reflexivity].
      * destruct (IH false w') as (k & Hk & Hrest & Hcalls & Hwait & Hret).
        exists (S k). cbn [skipn firstn List.length].
        split; [lia|]. split; [exact Hrest|]. split; [|split].
        -- intros c Hin. destruct (Hcalls c Hin) as [Hw'|(b & d' & Hb & Hd' & ->)].
           ++ rewrite Hc in Hw'. apply in_app_or in Hw'.
              destruct Hw' as [Hw|Hw]; [now left|right].
              apply in_map_iff in Hw. destruct Hw as (b & <- & Hb).
              exists b, d. split; [rewrite Ebs; apply in_or_app; now left|].
              split; [now left|reflexivity].
           ++ right. exists b, d'. split; [assumption|].
              split; [now right|reflexivity].
        -- intros H. now rewrite Hwait.
        -- exact Hret.
Qed.

(** X4: [run] takes events from the front of the queue only and never
    puts one back.  What is left in the queue is the queue without its
    first [k] events; every handler call made is a call of a registered
    backend for one of these [k] events; the registry and the flag are
    as before.  [run] ends waiting in [get] only with the whole queue
    taken, and returns only if [quit] was set. *)
Theorem run_takes_from_the_front :
  forall self : ForwardingListener.t,
    exists k,
      (k <= List.length (Queue.items (forwarder_queue self)))%nat
      /\ Queue.items (forwarder_queue (snd (fst (run self))))
         = skipn k (Queue.items (forwarder_queue self))
      /\ backends (snd (fst (run self))) = backends self
      /\ quit (snd (fst (run self))) = quit self
      /\ (forall c, In c (calls (snd (run self))) ->
            exists b d,
              In b (backends self)
              /\ In d (firstn k (Queue.items (forwarder_queue self)))
              /\ c = call_of b d)
      /\ (fst (fst (run self)) = WaitingInGet ->
          k = List.length (Queue.items (forwarder_queue self)))
      /\ (fst (fst (run self)) = Returned -> quit self = true).
Proof.
  intros [bs q [ms items]]. rewrite run_eq.
  cbn [quit backends forwarder_queue Queue.items Queue.maxsize].
  destruct (loop_consumes q bs items false (mk_effects [] []))
    as (k & Hk & Hrest & Hcalls & Hwait & Hret).
  destruct (loop q bs false items (mk_effects [] [])) as [[e rest] w'].
  cbn [fst snd quit backends forwarder_queue Queue.items] in *.
  exists k. repeat (split; [assumption || reflexivity|]).
  split; [|split; assumption].
  intros c Hin. destruct (Hcalls c Hin) as [[]|H]. exact H.
Qed.

(** An exception that ends a cycle was raised by a handler. *)
Lemma for_backend_raised_by (bs : list BackendAdapter.t) (d : message) (e : exn) :
  forall w, snd (for_backend bs d w) = Some e ->
    exists b, In b bs /\ invoke b d = Raise e.
Proof.
  induction bs as [|b bs IH]; intros w; [discriminate|].
  rewrite for_backend_cons. destruct (invoke b d) as [printed|e'] eqn:E.
  - intros H. destruct (IH _ H) as (b' & Hb' & He). exists b'. split; [now right|assumption].
  - cbn [snd]. intros [= <-]. exists b. split; [now left|assumption].
Qed.

Lemma loop_escaped_by (quit : bool) (bs : list BackendAdapter.t) (e : exn) :
  forall items in_get w,
    fst (fst (loop quit bs in_get items w)) = Escaped e ->
    exists b d, In b bs /\ In d items /\ invoke b d = Raise e.
Proof.
  induction items as [|d items IH]; intros in_get w; cbn [loop].
  - destruct (negb in_get && quit); discriminate.
  - destruct (negb in_get && quit); [discriminate|].
    destruct (for_backend bs d w) as [w' [e'|]] eqn:Ef; cbn [fst].
    + intros [= <-].
      destruct (@for_backend_raised_by bs d e' w) as (b & Hb & He);
        [now rewrite Ef|].
      exists b, d. split; [assumption|]. split; [now left|assumption].
    + intros H. destruct (IH _ _ H) as (b & d' & Hb & Hd & He).
      exists b, d'. split; [assumption|]. split; [now right|assumption].
Qed.

(** X5: on a queue of events that hold a type and a payload, as the hooks
    make them, whatever [run] raises was raised by a handler of a
    registered backend, called for an event of the queue. *)
Theorem run_raises_only_what_a_handler_raised :
  forall (self : ForwardingListener.t) (e : exn),
    fst (fst (run self)) = Escaped e ->
    exists b d,
      In b (backends self)
      /\ In d (Queue.items (forwarder_queue self))
      /\ invoke b d = Raise e.
Proof.
  intros [bs q [ms items]] e. rewrite run_eq.
  cbn [quit backends forwarder_queue Queue.items Queue.maxsize].
  pose proof (@loop_escaped_by q bs e items false (mk_effects [] [])) as H.
  destruct (loop q bs false items (mk_effects [] [])) as [[e' rest] w'].
  exact H.
Qed.

Lemma run_raises_only_what_a_handler_raised_witness :
  exists b d,
    In b [PrintAdapter.new 1]
    /\ In d [mk_message (str "failure") failure_payload]
    /\ invoke b d = Raise TypeError.
Proof.
  apply (@run_raises_only_what_a_handler_raised
           (listening [PrintAdapter.new 1] false
              [mk_message (str "failure") failure_payload]) TypeError).
  reflexivity.
Defined.

(** ** More on the console adapter *)


(** ** More on the Elasticsearch adapter *)

(** X7: a store that refuses a document stops the dispatch loop.  For an
    adapter that [ElasticSearchAdapter] constructed, on the client that
    was made for the given hosts, if [es.index] raises
    on the document made of the event, with the backends iterated before
    it returning, [run] ends with that exception: the event is gone from
    the queue, the events behind it stay there, the backends iterated
    after the adapter are not called. *)
Theorem store_failure_stops_run :
  forall (o : positive) (connect : pyobj -> result Elasticsearch)
         (elastic_hosts : pyobj) (es : Elasticsearch) (index_name : pystr)
         (verify_connection : bool) (adapter : BackendAdapter.t)
         (pre post : list BackendAdapter.t) (d : message)
         (items : list message) (e : exn) (maxsize : Z),
    connect elastic_hosts = Ok es ->
    ElasticSearchAdapter.__init__ o connect elastic_hosts index_name
      verify_connection = Ok adapter ->
    Forall (fun b => returns b d) pre ->
    index es index_name
      (mk_message (if is_failure d then str "failure" else str "success")
         (payload d)) = Raise e ->
    exists printed,
      run (ForwardingListener.mk (pre ++ adapter :: post) false
             (Queue.mk maxsize (d :: items)))
      = (Escaped e,
         ForwardingListener.mk (pre ++ adapter :: post) false
           (Queue.mk maxsize items),
         mk_effects (map (fun b => call_of b d) (pre ++ [adapter])) printed).
Proof.
  intros o connect hosts es index_name verify adapter pre post d items e maxsize
    Hes Hinit Hpre Hix.
  assert (invoke adapter d = Raise e) as Ha.
  { unfold ElasticSearchAdapter.__init__ in Hinit.
    rewrite Hes in Hinit. cbn [bind] in Hinit.
    assert (adapter
            = BackendAdapter.mk o "locust_plugins.backend_base.ElasticSearchAdapter"
                (ElasticSearchAdapter.handle_success es index_name)
                (ElasticSearchAdapter.handle_failure es index_name)) as ->.
    { destruct verify; [|congruence].
      destruct (cluster_health es) as [v|[]]; congruence. }
    unfold invoke. cbn [BackendAdapter.handle_success BackendAdapter.handle_failure].
    unfold ElasticSearchAdapter.handle_success, ElasticSearchAdapter.handle_failure,
      ElasticSearchAdapter.send.
    destruct (is_failure d); now rewrite Hix. }
  destruct (@for_backend_raise pre adapter post d e (mk_effects [] []) Hpre Ha)
    as [printed Hf].
  exists printed. rewrite run_eq.
  cbn [quit backends forwarder_queue Queue.items Queue.maxsize].
  rewrite loop_unset_cons, Hf. reflexivity.
Qed.

Lemma store_failure_stops_run_witness :
  exists adapter printed,
    ElasticSearchAdapter.__init__ 2 (client_class unreachable)
      ElasticSearchAdapter.default_hosts
      ElasticSearchAdapter.default_index_name false = Ok adapter
    /\ run (ForwardingListener.mk ([PrintAdapter.new 1] ++ adapter :: [])
              false (Queue.mk 0 (login_event :: [logout_event])))
       = (Escaped ConnectionError,
          ForwardingListener.mk ([PrintAdapter.new 1] ++ adapter :: [])
            false (Queue.mk 0 [logout_event]),
          mk_effects
            (map (fun b => call_of b login_event) ([PrintAdapter.new 1] ++ [adapter]))
            printed).
Proof.
  eexists.
  destruct (@store_failure_stops_run 2 (client_class unreachable)
              ElasticSearchAdapter.default_hosts unreachable
              ElasticSearchAdapter.default_index_name false _
              [PrintAdapter.new 1] []
              login_event [logout_event] ConnectionError 0%Z eq_refl eq_refl
              ltac:(all_returning) eq_refl) as [printed H].
  exists printed. split; [reflexivity|exact H].
Defined.

(** ** From the hook to the console *)

(** X8: an event made by the success hook from well-formed arguments
    (as in C10: no keyword bears the name of a parameter, integers of at
    most 4300 digits; and a request type and a name of Unicode scalar
    values, which [print] can write) reaches the console as given.  With a [PrintAdapter] registered and
    the queue empty, [request_success] puts one event on the queue, and
    [run] then calls [handle_success] once with the payload, prints the
    request type, the name, the time, the length, [True] and [None], and
    waits in [get] with the queue empty. *)
Theorem success_event_is_printed :
  forall (o : positive) (rt nm : pystr) (t len : Z) (kw : list (pystr * pyarg)),
    Forall plain_char rt -> Forall plain_char nm ->
    Forall scalar_value rt -> Forall scalar_value nm ->
    kwargs_ok kw ->
    keyword_clash kw = false ->
    few_digits t = true -> few_digits len = true ->
    kwargs_few_digits kw = true ->
    exists self',
      request_success (listening [PrintAdapter.new o] false [])
        (AStr rt) (AStr nm) (AInt t) (AInt len) kw = Done self'
      /\ run self'
         = (WaitingInGet, listening [PrintAdapter.new o] false [],
            mk_effects
              [mk_delivery o HandleSuccess (success_payload rt nm t len kw)]
              [[PyStr rt; PyStr nm; PyInt t; PyInt len; PyBool true; PyNone]]).
Proof.
  intros o rt nm t len kw Hrt Hnm _ _ Hkw _ _ _ _. eexists. split.
  - unfold request_success. rewrite (dumps_eq (proj2 Hkw)). cbn [bind].
    rewrite OK_TEMPLATE_filled. cbn [bind].
    rewrite loads_success_text by assumption. reflexivity.
  - reflexivity.
Qed.

Lemma success_event_is_printed_witness :
  exists self',
    request_success (listening [PrintAdapter.new 7] false [])
      (AStr (str "POST")) (AStr (str "/login")) (AInt 120) (AInt 512)
      [(str "user", AStr (str "ada"))] = Done self'
    /\ run self'
       = (WaitingInGet, listening [PrintAdapter.new 7] false [],
          mk_effects
            [mk_delivery 7 HandleSuccess
               (success_payload (str "POST") (str "/login") 120 512
                  [(str "user", AStr (str "ada"))])]
            [[PyStr (str "POST"); PyStr (str "/login"); PyInt 120; PyInt 512;
              PyBool true; PyNone]]).
Proof.
  apply (@success_event_is_printed 7 (str "POST") (str "/login") 120%Z 512%Z
           [(str "user", AStr (str "ada"))]).
  - apply Forall_plain. reflexivity.
  - apply Forall_plain. reflexivity.
  - repeat constructor; left; reflexivity.
  - repeat constructor; left; reflexivity.
  - split.
    + cbn. repeat (constructor; [cbn; intuition discriminate|]). constructor.
    + repeat constructor; cbn; try (left; vm_compute; reflexivity).
  - reflexivity.
  - reflexivity.
  - reflexivity.
  - reflexivity.
Defined.

(** ** More on the success hook *)

Lemma JSONObject_gives_dict (fuel : nat) :
  forall s pairs v r,
    json.JSONObject fuel s pairs = json.Scanned v r -> exists d, v = PyDict d.
Proof.
  induction fuel as [|fuel IH]; intros s pairs v r; cbn [json.JSONObject];
    [discriminate|].
  destruct (json.scanstring fuel s) as [key s1| |]; try discriminate.
  destruct (json.skip_ws s1) as [|c s2]; [discriminate|].
  destruct (c =? 58); [|discriminate].
  destruct (json.scan_once fuel (json.skip_ws s2)) as [value s3| |];
    try discriminate.
  destruct (json.skip_ws s3) as [|d s4]; [discriminate|].
  destruct (d =? 125); [intros [= <- _]; eauto|].
  destruct (d =? 44); [|discriminate].
  destruct (json.skip_ws s4) as [|q s5]; [discriminate|].
  destruct (q =? QUOTE); [|discriminate].
  apply IH.
Qed.

(** A text that opens with a brace is read as a [dict], if it is read. *)
Lemma loads_brace_gives_dict (rest : pystr) (v : pyobj) :
  json.loads (123 :: rest) = Ok v -> exists d, v = PyDict d.
Proof.
  unfold json.loads, json.decode.
  rewrite (@skip_ws_head 123) by reflexivity.
  destruct (2 * List.length (123%N :: rest) + 2)%nat as [|fuel]; [discriminate|].
  cbn [json.scan_once]. change (123 =? QUOTE) with false.
  change (123 =? 123) with true. cbv iota.
  destruct (json.skip_ws rest) as [|c s2]; [discriminate|].
  destruct (c =? QUOTE).
  - destruct (json.JSONObject fuel s2 []) as [v' r| |] eqn:E; try discriminate.
    destruct (JSONObject_gives_dict _ _ _ E) as [d ->].
    destruct (json.skip_ws r); [|discriminate]. intros [= <-]. eauto.
  - destruct (c =? 125); [|discriminate].
    destruct (json.skip_ws s2); [|discriminate]. intros [= <-]. eauto.
Qed.

Lemma OK_TEMPLATE_opens_with_brace (a1 a2 a3 a4 a5 : pyarg) :
  exists rest,
    percent_format ForwardingListener.OK_TEMPLATE [a1; a2; a3; a4; a5]
    = Ok (123 :: rest).
Proof. eexists. vm_compute. reflexivity. Qed.

Lemma request_success_gives (self self' : ForwardingListener.t)
    (a1 a2 a3 a4 : pyarg) (kw : list (pystr * pyarg)) :
  request_success self a1 a2 a3 a4 kw = Done self' ->
  exists d,
    self' = ForwardingListener.mk (backends self) (quit self)
              (Queue.mk (Queue.maxsize (forwarder_queue self))
                 (Queue.items (forwarder_queue self)
                    ++ [mk_message (str "success") (PyDict d)])).
Proof.
  unfold request_success.
  destruct (json.dumps kw) as [other|e]; cbn [bind]; [|discriminate].
  destruct (OK_TEMPLATE_opens_with_brace a1 a2 a3 a4 (AStr other)) as [rest ->].
  cbn [bind].
  destruct (json.loads (123 :: rest)) as [v|e] eqn:E; cbn [bind]; [|discriminate].
  destruct (loads_brace_gives_dict _ E) as [d ->].
  unfold add, Queue.put.
  destruct (Queue.full (forwarder_queue self)); [discriminate|].
  intros [= <-]. eauto.
Qed.

(** X9: when the success hook returns, whatever its arguments, it has
    put exactly one event at the end of the queue; the event's type is
    ["success"] and its payload is a [dict]; the registry, the flag and
    the queue's bound are as before. *)
Theorem request_success_enqueues_a_dict :
  forall (self self' : ForwardingListener.t)
         (request_type name response_time response_length : pyarg)
         (kwargs : list (pystr * pyarg)),
    request_success self request_type name response_time response_length kwargs
    = Done self' ->
    (exists d,
       Queue.items (forwarder_queue self')
       = Queue.items (forwarder_queue self)
           ++ [mk_message (str "success") (PyDict d)])
    /\ Queue.maxsize (forwarder_queue self')
       = Queue.maxsize (forwarder_queue self)
    /\ backends self' = backends self
    /\ quit self' = quit self.
Proof.
  intros self self' a1 a2 a3 a4 kw H.
  destruct (@request_success_gives _ _ _ _ _ _ _ H) as [d ->].
  cbn [forwarder_queue Queue.items Queue.maxsize backends quit].
  split; [now exists d|]. repeat split.
Qed.

Lemma request_success_enqueues_a_dict_witness :
  let self' :=
    listening [] false
      [mk_message (str "success")
         (PyDict [(str "request_type", PyStr (str "GET"));
                  (str "name", PyStr (str "a"));
                  (str "self", PyStr (str "b"));
                  (str "response_time", PyInt 120);
                  (str "response_length", PyInt 512);
                  (str "other", PyDict [])])] in
  (exists d,
     Queue.items (forwarder_queue self')
     = Queue.items (forwarder_queue ForwardingListener.__init__)
         ++ [mk_message (str "success") (PyDict d)])
  /\ Queue.maxsize (forwarder_queue self')
     = Queue.maxsize (forwarder_queue ForwardingListener.__init__)
  /\ backends self' = backends ForwardingListener.__init__
  /\ quit self' = quit ForwardingListener.__init__.
Proof.
  apply (@request_success_enqueues_a_dict ForwardingListener.__init__
           (listening [] false
              [mk_message (str "success")
                 (PyDict [(str "request_type", PyStr (str "GET"));
                          (str "name", PyStr (str "a"));
                          (str "self", PyStr (str "b"));
                          (str "response_time", PyInt 120);
                          (str "response_length", PyInt 512);
                          (str "other", PyDict [])])])
           (AStr (str "GET")) (AStr (dq "a', 'self':'b")) (AInt 120)
           (AInt 512) []).
  reflexivity.
Defined.

(** A keyword argument that is not serializable *)
Lemma dumps_items_exception (kw : list (pystr * pyarg)) (k m : pystr) :
  In (k, AException m) kw -> json.dumps_items kw = Raise TypeError.
Proof.
  induction kw as [|kv kw IH]; intros Hin; [destruct Hin|].
  destruct kw as [|kv' kw'].
  - destruct Hin as [->|[]]. reflexivity.
  - rewrite dumps_items_cons.
    destruct (json.dumps_item kv) as [x|e] eqn:Ex; cbn [bind].
    + destruct Hin as [->|Hin]; [discriminate|].
      now rewrite IH.
    + now rewrite (dumps_item_raises _ Ex).
Qed.

(** X10: a keyword argument that is an exception object (not JSON
    serializable) makes the success hook raise [TypeError], whatever the
    other arguments are; no event is put on the queue. *)
Theorem request_success_unserializable_kwarg :
  forall (self : ForwardingListener.t)
         (request_type name response_time response_length : pyarg)
         (kwargs : list (pystr * pyarg)) (k m : pystr),
    In (k, AException m) kwargs ->
    request_success self request_type name response_time response_length kwargs
    = Raised TypeError.
Proof.
  intros self a1 a2 a3 a4 kw k m Hin. unfold request_success, json.dumps.
  now rewrite (dumps_items_exception _ _ _ Hin).
Qed.

Lemma request_success_unserializable_kwarg_witness :
  request_success ForwardingListener.__init__ (AStr (str "GET"))
    (AStr (str "/")) (AInt 1) (AInt 2)
    [(str "user", AStr (str "ada")); (str "cause", AException (str "boom"))]
  = Raised TypeError.
Proof.
  apply (@request_success_unserializable_kwarg ForwardingListener.__init__
           (AStr (str "GET")) (AStr (str "/")) (AInt 1) (AInt 2)
           [(str "user", AStr (str "ada")); (str "cause", AException (str "boom"))]
           (str "cause") (str "boom")).
  right. left. reflexivity.
Defined.

(** ** A listener driven through its methods *)

Lemma skipn_incl {A : Type} (k : nat) :
  forall (l : list A) x, In x (skipn k l) -> In x l.
Proof.
  induction k as [|k IH]; intros [|y l] x; cbn [skipn]; auto.
  intros H. right. now apply IH.
Qed.

Lemma firstn_incl {A : Type} (k : nat) :
  forall (l : list A) x, In x (firstn k l) -> In x l.
Proof.
  induction k as [|k IH]; intros [|y l] x; cbn [firstn In]; try tauto.
  intros [->|H]; [now left|right; now apply IH].
Qed.

Lemma discard_incl (s : list BackendAdapter.t) (a b : BackendAdapter.t) :
  In b (pyset.discard s a) -> In b s.
Proof.
  induction s as [|y s IH]; cbn [pyset.discard]; [tauto|].
  destruct (pyset.same a y); cbn [In]; tauto.
Qed.

Lemma discard_distinct (s : list BackendAdapter.t) (a : BackendAdapter.t) :
  NoDup (oids s) -> NoDup (oids (pyset.discard s a)).
Proof.
  induction s as [|y s IH]; cbn [pyset.discard oids map]; [auto|].
  intros H. inversion_clear H as [|? ? Hy Hs].
  destruct (pyset.same a y); [assumption|].
  cbn [oids map]. constructor; [|now apply IH].
  intros Hin. apply Hy. apply in_map_iff in Hin. destruct Hin as (b & <- & Hb).
  apply in_map. eapply discard_incl; eassumption.
Qed.

Lemma request_failure_not_done (self self' : ForwardingListener.t)
    (a1 a2 a3 a4 : pyarg) (kw : list (pystr * pyarg)) :
  request_failure self a1 a2 a3 a4 kw <> Done self'.
Proof.
  unfold request_failure.
  destruct (json.dumps kw) as [other|e]; cbn [bind]; [|discriminate].
  rewrite ERR_TEMPLATE_six_arguments. discriminate.
Qed.

Lemma kept_by_driven (heap : positive -> BackendAdapter.t) :
  (forall o, BackendAdapter.oid (heap o) = o) ->
  forall self, driven heap self -> kept heap self.
Proof.
  intros Hheap self H.
  induction H as [|self o H IH|self self' o H IH Hr
                  |self self' a1 a2 a3 a4 kw H IH Hs
                  |self self' a1 a2 a3 a4 kw H IH Hf|self H IH].
  - constructor; cbn; auto; try constructor. intros b [].
  - destruct IH as [Hq Hm Hd Ho He]. constructor; cbn [add_backend quit
      forwarder_queue backends]; auto.
    + apply (@add_backend_keeps_distinct self (heap o) Hd).
      intros b Hb E. rewrite (Ho b Hb), E. now rewrite Hheap.
    + intros b Hb. unfold pyset.add in Hb.
      destruct (pyset.contains (backends self) (heap o)); [auto|].
      apply in_app_or in Hb. destruct Hb as [Hb|[<-|[]]]; [auto|].
      now rewrite Hheap.
  - destruct IH as [Hq Hm Hd Ho He].
    unfold remove_backend, pyset.remove in Hr.
    destruct (pyset.contains (backends self) (heap o)); [|discriminate].
    cbn [bind] in Hr. injection Hr as <-.
    constructor; cbn [quit forwarder_queue backends]; auto.
    + now apply discard_distinct.
    + intros b Hb. apply Ho. eapply discard_incl; eassumption.
  - destruct IH as [Hq Hm Hd Ho He].
    destruct (@request_success_gives _ _ _ _ _ _ _ Hs) as [d ->].
    constructor; cbn [quit forwarder_queue backends Queue.maxsize Queue.items]; auto.
    apply Forall_app. split; [assumption|].
    constructor; [|constructor]. split; [reflexivity|]. cbn [payload]. eauto.
  - exfalso. eapply request_failure_not_done; eassumption.
  - destruct IH as [Hq Hm Hd Ho He].
    rewrite run_eq.
    destruct (loop_consumes (quit self) (backends self)
                (Queue.items (forwarder_queue self)) false (mk_effects [] []))
      as (k & _ & Hrest & _).
    destruct (loop (quit self) (backends self) false
                (Queue.items (forwarder_queue self)) (mk_effects [] []))
      as [[e rest] w'].
    cbn [fst snd] in *. subst rest.
    constructor; cbn [quit forwarder_queue backends Queue.maxsize Queue.items]; auto.
    rewrite Forall_forall in *. intros m Hm'. apply He.
    eapply skipn_incl; eassumption.
Qed.

(** X11: a listener that is driven through [add_backend],
    [remove_backend], the two hooks and [run] keeps [quit] unset, keeps
    its queue unbounded, holds no adapter object twice, and has only
    events of type ["success"] with a [dict] payload in its queue: the
    failure hook never puts one there. *)
Theorem driven_listener_keeps :
  forall (heap : positive -> BackendAdapter.t) (self : ForwardingListener.t),
    (forall o, BackendAdapter.oid (heap o) = o) ->
    driven heap self ->
    quit self = false
    /\ unbounded self
    /\ NoDup (oids (backends self))
    /\ Forall success_event (Queue.items (forwarder_queue self)).
Proof.
  intros heap self Hheap H.
  destruct (kept_by_driven Hheap H) as [Hq Hm Hd _ He].
  split; [assumption|]. split; [unfold unbounded; lia|]. split; assumption.
Qed.

(** X12: on a listener that is driven through [add_backend],
    [remove_backend], the two hooks and [run], with no event put on the
    queue but by the hooks, [run] never calls [handle_failure] and never
    returns: every handler call it makes is a call of
    [handle_success], and it ends waiting in [get] or by the exception
    of a handler. *)
Theorem driven_run_calls_handle_success_only :
  forall (heap : positive -> BackendAdapter.t) (self : ForwardingListener.t),
    (forall o, BackendAdapter.oid (heap o) = o) ->
    driven heap self ->
    fst (fst (run self)) <> Returned
    /\ forall c, In c (calls (snd (run self))) -> via c = HandleSuccess.
Proof.
  intros heap self Hheap H.
  destruct (kept_by_driven Hheap H) as [Hq Hm Hd _ He].
  rewrite run_eq.
  destruct (loop_consumes (quit self) (backends self)
              (Queue.items (forwarder_queue self)) false (mk_effects [] []))
    as (k & _ & _ & Hcalls & _ & Hret).
  destruct (loop (quit self) (backends self) false
              (Queue.items (forwarder_queue self)) (mk_effects [] []))
    as [[e rest] w'].
  cbn [fst snd] in *. split.
  - intros ->. specialize (Hret eq_refl). congruence.
  - intros c Hc. destruct (Hcalls c Hc) as [[]|(b & d & _ & Hd' & ->)].
    apply firstn_incl in Hd'. rewrite Forall_forall in He.
    destruct (He d Hd') as [Ht _].
    unfold call_of, is_failure. cbn [via]. now rewrite Ht.
Qed.

Lemma driven_listener_keeps_witness :
  let self := listening [PrintAdapter.new 1] false [login_event] in
  quit self = false
  /\ unbounded self
  /\ NoDup (oids (backends self))
  /\ Forall success_event (Queue.items (forwarder_queue self)).
Proof.
  apply (@driven_listener_keeps PrintAdapter.new
           (listening [PrintAdapter.new 1] false [login_event])).
  - reflexivity.
  - apply (@driven_request_success PrintAdapter.new
             (add_backend ForwardingListener.__init__ (PrintAdapter.new 1))
             (listening [PrintAdapter.new 1] false [login_event])
             (AStr (str "POST")) (AStr (str "/login")) (AInt 120) (AInt 512) []).
    + apply (driven_add_backend 1 (driven_init PrintAdapter.new)).
    + reflexivity.
Defined.

Lemma driven_run_calls_handle_success_only_witness :
  let self := listening [PrintAdapter.new 1] false [login_event] in
  fst (fst (run self)) <> Returned
  /\ forall c, In c (calls (snd (run self))) -> via c = HandleSuccess.
Proof.
  apply (@driven_run_calls_handle_success_only PrintAdapter.new
           (listening [PrintAdapter.new 1] false [login_event])).
  - reflexivity.
  - apply (@driven_request_success PrintAdapter.new
             (add_backend ForwardingListener.__init__ (PrintAdapter.new 1))
             (listening [PrintAdapter.new 1] false [login_event])
             (AStr (str "POST")) (AStr (str "/login")) (AInt 120) (AInt 512) []).
    + apply (driven_add_backend 1 (driven_init PrintAdapter.new)).
    + reflexivity.
Defined.

(** ** The success hook on values that are not numbers *)

Lemma OK_TEMPLATE_filled_with (x1 x2 x3 x4 x5 : pyarg) :
  percent_format ForwardingListener.OK_TEMPLATE [x1; x2; x3; x4; x5]
  = Ok (hook_text (py_str x1) (py_str x2) (py_str x3) (py_str x4) (py_str x5)).
Proof. vm_compute. reflexivity. Qed.

Lemma JSONObject_stops (fuel : nat) (s s2 key : pystr)
    (pairs : list (pystr * pyobj)) :
  json.scanstring fuel s = json.Scanned key (58 :: s2) ->
  json.scan_once fuel (json.skip_ws s2) = json.Invalid ->
  json.JSONObject (S fuel) s pairs = json.Invalid.
Proof.
  intros H1 H2. cbn [json.JSONObject]. rewrite H1.
  rewrite (@skip_ws_head 58) by reflexivity. change (58 =? 58) with true.
  cbv iota. now rewrite H2.
Qed.

Lemma scan_once_not_json (a : pyarg) (rest : pystr) (fuel : nat) :
  not_json a ->
  json.scan_once (S fuel) (json.skip_ws (py_str a ++ rest)) = json.Invalid.
Proof. intros [->|[[|] ->]]; reflexivity. Qed.

Lemma scan_once_hook_text_invalid (rt nm : pystr) (a3 a4 : pyarg)
    (kw : list (pystr * pyarg)) (fuel : nat) :
  Forall plain_char rt -> Forall plain_char nm ->
  not_json a3 \/ ((exists t, a3 = AInt t) /\ not_json a4) ->
  (List.length (hook_text rt nm (py_str a3) (py_str a4) (dumps_text kw))
   <= fuel)%nat ->
  json.scan_once fuel (hook_text rt nm (py_str a3) (py_str a4) (dumps_text kw))
  = json.Invalid.
Proof.
  intros Hrt Hnm Hbad Hf. unfold hook_text in *.
  repeat (cbn [List.length] in Hf; rewrite length_app in Hf).
  cbn [List.length] in Hf.
  change (List.length (str "request_type")) with 12%nat in Hf.
  change (List.length (str "name")) with 4%nat in Hf.
  change (List.length (str "response_time")) with 13%nat in Hf.
  change (List.length (str "response_length")) with 15%nat in Hf.
  change (List.length (str "other")) with 5%nat in Hf.
  destruct fuel as [|fuel]; [lia|].
  cbn [json.scan_once]. change (123 =? QUOTE) with false.
  change (123 =? 123) with true. cbv iota.
  rewrite (@skip_ws_head QUOTE) by reflexivity. rewrite N.eqb_refl.
  destruct fuel as [|fuel]; [lia|].
  erewrite JSONObject_next;
    [|apply scanstring_key; [reflexivity|cbn; lia]
     |apply scan_once_plain_string; [assumption|lia]].
  destruct fuel as [|fuel]; [lia|].
  erewrite JSONObject_next;
    [|apply scanstring_key; [reflexivity|cbn; lia]
     |apply scan_once_plain_string; [assumption|lia]].
  destruct fuel as [|fuel]; [lia|].
  destruct fuel as [|fuel]; [lia|].
  destruct Hbad as [H3|[[t ->] H4]].
  - eapply JSONObject_stops;
      [apply scanstring_key; [reflexivity|cbn; lia]
      |now apply scan_once_not_json].
  - erewrite JSONObject_next;
      [|apply scanstring_key; [reflexivity|cbn; lia]
       |apply (@scan_once_skip_value_text (AInt t));
          [exact I|eexists; now left|cbn [value_text py_str] in *; lia]].
    destruct fuel as [|fuel]; [lia|].
    eapply JSONObject_stops;
      [apply scanstring_key; [reflexivity|cbn; lia]
      |now apply scan_once_not_json].
Qed.

(** X13: a response time that is [None] or a boolean, or an integer
    response time with a response length that is [None] or a boolean,
    makes the success hook raise [JSONDecodeError]: [%s] writes [None],
    [True] and [False], which are not JSON.  No event is put on the
    queue. *)
Theorem request_success_needs_numbers :
  forall (self : ForwardingListener.t) (rt nm : pystr)
         (response_time response_length : pyarg) (kw : list (pystr * pyarg)),
    Forall plain_char rt -> Forall plain_char nm -> Forall item_ok kw ->
    not_json response_time
    \/ ((exists t, response_time = AInt t) /\ not_json response_length) ->
    request_success self (AStr rt) (AStr nm) response_time response_length kw
    = Raised JSONDecodeError.
Proof.
  intros self rt nm a3 a4 kw Hrt Hnm Hkw Hbad. unfold request_success.
  rewrite (dumps_eq Hkw). cbn [bind].
  rewrite OK_TEMPLATE_filled_with. cbn [bind py_str].
  pose proof (@scan_once_hook_text_invalid rt nm a3 a4 kw
                (2 * List.length
                       (hook_text rt nm (py_str a3) (py_str a4) (dumps_text kw))
                 + 2) Hrt Hnm Hbad ltac:(lia)) as H.
  unfold json.loads, json.decode.
  change (hook_text rt nm (py_str a3) (py_str a4) (dumps_text kw))
    with (123 :: tl (hook_text rt nm (py_str a3) (py_str a4) (dumps_text kw)))
    in *.
  rewrite (@skip_ws_head 123) by reflexivity.
  now rewrite H.
Qed.

Lemma request_success_needs_numbers_witness :
  request_success ForwardingListener.__init__ (AStr (str "GET"))
    (AStr (str "/")) ANone (AInt 512) [] = Raised JSONDecodeError
  /\ request_success ForwardingListener.__init__ (AStr (str "GET"))
       (AStr (str "/")) (AInt 120) (ABool true) [] = Raised JSONDecodeError.
Proof.
  split.
  - apply (@request_success_needs_numbers ForwardingListener.__init__
             (str "GET") (str "/") ANone (AInt 512) []).
    + apply Forall_plain. reflexivity.
    + apply Forall_plain. reflexivity.
    + constructor.
    + left. now left.
  - apply (@request_success_needs_numbers ForwardingListener.__init__
             (str "GET") (str "/") (AInt 120) (ABool true) []).
    + apply Forall_plain. reflexivity.
    + apply Forall_plain. reflexivity.
    + constructor.
    + right. split; [now exists 120%Z|]. right. now exists true.
Defined.

(** ** The loop without backends *)

Lemma loop_without_backends (items : list message) :
  forall in_get w,
    loop false [] in_get items w = (WaitingInGet, [], w).
Proof.
  induction items as [|d items IH]; intros in_get w.
  - cbn [loop]. now rewrite andb_false_r.
  - rewrite loop_unset_cons. cbn [for_backend]. apply IH.
Qed.

(** X14: with no backend registered and [quit] unset, [run] takes every
    event off the queue and calls nothing: the events are gone, and the
    loop waits in [get] on the empty queue. *)
Theorem run_without_backends_discards :
  forall (maxsize : Z) (items : list message),
    run (ForwardingListener.mk [] false (Queue.mk maxsize items))
    = (WaitingInGet, ForwardingListener.mk [] false (Queue.mk maxsize []),
       mk_effects [] []).
Proof.
  intros maxsize items. rewrite run_eq.
  cbn [quit backends forwarder_queue Queue.items Queue.maxsize].
  now rewrite loop_without_backends.
Qed.

(** ** When the Elasticsearch handlers return *)

(** X15: a handler of the Elasticsearch adapter returns exactly when
    [es.index], given the index name and the payload wrapped with its
    type (["success"] for [handle_success], ["failure"] for
    [handle_failure]), answers a [dict] that holds the key [result].  An
    answer that is a [dict] without that key makes the handler raise
    [KeyError], although the store has taken the document. *)
Theorem elastic_handlers_return_iff :
  forall (es : Elasticsearch) (index_name : pystr) (data : pyobj),
    ((exists printed,
        ElasticSearchAdapter.handle_success es index_name data = Ok printed)
     <-> exists d v,
           index es index_name (mk_message (str "success") data)
           = Ok (PyDict d)
           /\ dict_get d (str "result") = Some v)
    /\ ((exists printed,
           ElasticSearchAdapter.handle_failure es index_name data = Ok printed)
        <-> exists d v,
              index es index_name (mk_message (str "failure") data)
              = Ok (PyDict d)
              /\ dict_get d (str "result") = Some v)
    /\ (forall d,
          index es index_name (mk_message (str "success") data) = Ok (PyDict d) ->
          dict_get d (str "result") = None ->
          ElasticSearchAdapter.handle_success es index_name data = Raise KeyError)
    /\ (forall d,
          index es index_name (mk_message (str "failure") data) = Ok (PyDict d) ->
          dict_get d (str "result") = None ->
          ElasticSearchAdapter.handle_failure es index_name data = Raise KeyError).
Proof.
  intros es index_name data.
  assert (forall m : message,
            (exists printed,
               ElasticSearchAdapter.send es index_name m = Ok printed)
            <-> exists d v,
                  index es index_name m = Ok (PyDict d)
                  /\ dict_get d (str "result") = Some v) as Hsend.
  { intros m. unfold ElasticSearchAdapter.send.
    destruct (index es index_name m) as [[| | | | | |d]|e]; cbn [bind];
      try (split; [intros [? ?]; discriminate
                  |intros (d' & v & H & _); discriminate]).
    destruct (dict_get d (str "result")) as [v|] eqn:E.
    - split; [intros _; eauto|intros _; eauto].
    - split; [intros [? ?]; discriminate|].
      intros (d' & v & H & Hv). injection H as <-. congruence. }
  unfold ElasticSearchAdapter.handle_success, ElasticSearchAdapter.handle_failure.
  split; [apply Hsend|]. split; [apply Hsend|].
  split; intros d H Hd; unfold ElasticSearchAdapter.send; rewrite H; cbn [bind];
    now rewrite Hd.
Qed.
